(** * SAP vs Open Orders row-by-row checker (app.py)

    A shallow embedding of the normalizers, the two column extractors, the
    row-by-row comparator and the report part of the page script, followed by
    the properties of the specification.

    A Python [str] is modelled as the list of its code points. Whitespace is
    the set [str.isspace] and [str.strip] use, and upper-casing follows the
    full upper-case mapping of the Unicode character database (version 14.0,
    as CPython 3.11 has it), including the characters that become two or
    three. *)

From Stdlib Require Import List String Ascii Bool Arith ZArith NArith Lia.
From Stdlib Require Import Sorted.
Import ListNotations.

(* ------------------------------------------------------------------ *)
(** ** Python string operations used by app.py *)

Module PyStr.

(** A character is its code point. *)
Definition char := N.

Definition pystr := list char.

(** A character written as an ASCII literal. *)
Definition ch (a : ascii) : char := N_of_ascii a.
Arguments ch : simpl never.

(** The text of UTF-8 bytes. *)
Fixpoint utf8_decode (bs : list N) : pystr :=
  match bs with
  | [] => []
  | b0 :: t0 =>
      if (b0 <? 128)%N then b0 :: utf8_decode t0
      else
        match t0 with
        | [] => []
        | b1 :: t1 =>
            if (b0 <? 224)%N
            then ((b0 - 192) * 64 + (b1 - 128))%N :: utf8_decode t1
            else
              match t1 with
              | [] => []
              | b2 :: t2 =>
                  if (b0 <? 240)%N
                  then ((b0 - 224) * 4096 + (b1 - 128) * 64 + (b2 - 128))%N
                         :: utf8_decode t2
                  else
                    match t2 with
                    | [] => []
                    | b3 :: t3 =>
                        ((b0 - 240) * 262144 + (b1 - 128) * 4096
                         + (b2 - 128) * 64 + (b3 - 128))%N :: utf8_decode t3
                    end
              end
        end
  end.

(** A string literal of the source (the file is UTF-8). *)
Definition lit (s : string) : pystr :=
  utf8_decode (map N_of_ascii (list_ascii_of_string s)).

(** [str.isspace] on one character, which is also what [str.strip] removes:
    TAB, LF, VT, FF, CR, FS, GS, RS, US, the space, NEL, the no-break space
    and the other Unicode spaces and line separators. *)
Definition is_space (c : char) : bool :=
  ((9 <=? c) && (c <=? 13) || (28 <=? c) && (c <=? 32)
   || (c =? 133) || (c =? 160) || (c =? 5760)
   || (8192 <=? c) && (c <=? 8202)
   || (c =? 8232) || (c =? 8233) || (c =? 8239) || (c =? 8287)
   || (c =? 12288))%N.

(** The class [[0-9]] of the regular expression. *)
Definition is_digit (c : char) : bool := ((48 <=? c) && (c <=? 57))%N.

Definition is_empty {A : Type} (l : list A) : bool :=
  match l with
  | [] => true
  | _ => false
  end.

(** The characters that [str.upper] changes, each with what it becomes. *)
Definition upper_table : list (char * list char) := [
  (97, [65]); (98, [66]); (99, [67]); (100, [68]); (101, [69]); (102, [70]);
  (103, [71]); (104, [72]); (105, [73]); (106, [74]); (107, [75]);
  (108, [76]); (109, [77]); (110, [78]); (111, [79]); (112, [80]);
  (113, [81]); (114, [82]); (115, [83]); (116, [84]); (117, [85]);
  (118, [86]); (119, [87]); (120, [88]); (121, [89]); (122, [90]);
  (181, [924]); (223, [83; 83]); (224, [192]); (225, [193]); (226, [194]);
  (227, [195]); (228, [196]); (229, [197]); (230, [198]); (231, [199]);
  (232, [200]); (233, [201]); (234, [202]); (235, [203]); (236, [204]);
  (237, [205]); (238, [206]); (239, [207]); (240, [208]); (241, [209]);
  (242, [210]); (243, [211]); (244, [212]); (245, [213]); (246, [214]);
  (248, [216]); (249, [217]); (250, [218]); (251, [219]); (252, [220]);
  (253, [221]); (254, [222]); (255, [376]); (257, [256]); (259, [258]);
  (261, [260]); (263, [262]); (265, [264]); (267, [266]); (269, [268]);
  (271, [270]); (273, [272]); (275, [274]); (277, [276]); (279, [278]);
  (281, [280]); (283, [282]); (285, [284]); (287, [286]); (289, [288]);
  (291, [290]); (293, [292]); (295, [294]); (297, [296]); (299, [298]);
  (301, [300]); (303, [302]); (305, [73]); (307, [306]); (309, [308]);
  (311, [310]); (314, [313]); (316, [315]); (318, [317]); (320, [319]);
  (322, [321]); (324, [323]); (326, [325]); (328, [327]); (329, [700; 78]);
  (331, [330]); (333, [332]); (335, [334]); (337, [336]); (339, [338]);
  (341, [340]); (343, [342]); (345, [344]); (347, [346]); (349, [348]);
  (351, [350]); (353, [352]); (355, [354]); (357, [356]); (359, [358]);
  (361, [360]); (363, [362]); (365, [364]); (367, [366]); (369, [368]);
  (371, [370]); (373, [372]); (375, [374]); (378, [377]); (380, [379]);
  (382, [381]); (383, [83]); (384, [579]); (387, [386]); (389, [388]);
  (392, [391]); (396, [395]); (402, [401]); (405, [502]); (409, [408]);
  (410, [573]); (414, [544]); (417, [416]); (419, [418]); (421, [420]);
  (424, [423]); (429, [428]); (432, [431]); (436, [435]); (438, [437]);
  (441, [440]); (445, [444]); (447, [503]); (453, [452]); (454, [452]);
  (456, [455]); (457, [455]); (459, [458]); (460, [458]); (462, [461]);
  (464, [463]); (466, [465]); (468, [467]); (470, [469]); (472, [471]);
  (474, [473]); (476, [475]); (477, [398]); (479, [478]); (481, [480]);
  (483, [482]); (485, [484]); (487, [486]); (489, [488]); (491, [490]);
  (493, [492]); (495, [494]); (496, [74; 780]); (498, [497]); (499, [497]);
  (501, [500]); (505, [504]); (507, [506]); (509, [508]); (511, [510]);
  (513, [512]); (515, [514]); (517, [516]); (519, [518]); (521, [520]);
  (523, [522]); (525, [524]); (527, [526]); (529, [528]); (531, [530]);
  (533, [532]); (535, [534]); (537, [536]); (539, [538]); (541, [540]);
  (543, [542]); (547, [546]); (549, [548]); (551, [550]); (553, [552]);
  (555, [554]); (557, [556]); (559, [558]); (561, [560]); (563, [562]);
  (572, [571]); (575, [11390]); (576, [11391]); (578, [577]); (583, [582]);
  (585, [584]); (587, [586]); (589, [588]); (591, [590]); (592, [11375]);
  (593, [11373]); (594, [11376]); (595, [385]); (596, [390]); (598, [393]);
  (599, [394]); (601, [399]); (603, [400]); (604, [42923]); (608, [403]);
  (609, [42924]); (611, [404]); (613, [42893]); (614, [42922]); (616, [407]);
  (617, [406]); (618, [42926]); (619, [11362]); (620, [42925]); (623, [412]);
  (625, [11374]); (626, [413]); (629, [415]); (637, [11364]); (640, [422]);
  (642, [42949]); (643, [425]); (647, [42929]); (648, [430]); (649, [580]);
  (650, [433]); (651, [434]); (652, [581]); (658, [439]); (669, [42930]);
  (670, [42928]); (837, [921]); (881, [880]); (883, [882]); (887, [886]);
  (891, [1021]); (892, [1022]); (893, [1023]); (912, [921; 776; 769]);
  (940, [902]); (941, [904]); (942, [905]); (943, [906]);
  (944, [933; 776; 769]); (945, [913]); (946, [914]); (947, [915]);
  (948, [916]); (949, [917]); (950, [918]); (951, [919]); (952, [920]);
  (953, [921]); (954, [922]); (955, [923]); (956, [924]); (957, [925]);
  (958, [926]); (959, [927]); (960, [928]); (961, [929]); (962, [931]);
  (963, [931]); (964, [932]); (965, [933]); (966, [934]); (967, [935]);
  (968, [936]); (969, [937]); (970, [938]); (971, [939]); (972, [908]);
  (973, [910]); (974, [911]); (976, [914]); (977, [920]); (981, [934]);
  (982, [928]); (983, [975]); (985, [984]); (987, [986]); (989, [988]);
  (991, [990]); (993, [992]); (995, [994]); (997, [996]); (999, [998]);
  (1001, [1000]); (1003, [1002]); (1005, [1004]); (1007, [1006]);
  (1008, [922]); (1009, [929]); (1010, [1017]); (1011, [895]); (1013, [917]);
  (1016, [1015]); (1019, [1018]); (1072, [1040]); (1073, [1041]);
  (1074, [1042]); (1075, [1043]); (1076, [1044]); (1077, [1045]);
  (1078, [1046]); (1079, [1047]); (1080, [1048]); (1081, [1049]);
  (1082, [1050]); (1083, [1051]); (1084, [1052]); (1085, [1053]);
  (1086, [1054]); (1087, [1055]); (1088, [1056]); (1089, [1057]);
  (1090, [1058]); (1091, [1059]); (1092, [1060]); (1093, [1061]);
  (1094, [1062]); (1095, [1063]); (1096, [1064]); (1097, [1065]);
  (1098, [1066]); (1099, [1067]); (1100, [1068]); (1101, [1069]);
  (1102, [1070]); (1103, [1071]); (1104, [1024]); (1105, [1025]);
  (1106, [1026]); (1107, [1027]); (1108, [1028]); (1109, [1029]);
  (1110, [1030]); (1111, [1031]); (1112, [1032]); (1113, [1033]);
  (1114, [1034]); (1115, [1035]); (1116, [1036]); (1117, [1037]);
  (1118, [1038]); (1119, [1039]); (1121, [1120]); (1123, [1122]);
  (1125, [1124]); (1127, [1126]); (1129, [1128]); (1131, [1130]);
  (1133, [1132]); (1135, [1134]); (1137, [1136]); (1139, [1138]);
  (1141, [1140]); (1143, [1142]); (1145, [1144]); (1147, [1146]);
  (1149, [1148]); (1151, [1150]); (1153, [1152]); (1163, [1162]);
  (1165, [1164]); (1167, [1166]); (1169, [1168]); (1171, [1170]);
  (1173, [1172]); (1175, [1174]); (1177, [1176]); (1179, [1178]);
  (1181, [1180]); (1183, [1182]); (1185, [1184]); (1187, [1186]);
  (1189, [1188]); (1191, [1190]); (1193, [1192]); (1195, [1194]);
  (1197, [1196]); (1199, [1198]); (1201, [1200]); (1203, [1202]);
  (1205, [1204]); (1207, [1206]); (1209, [1208]); (1211, [1210]);
  (1213, [1212]); (1215, [1214]); (1218, [1217]); (1220, [1219]);
  (1222, [1221]); (1224, [1223]); (1226, [1225]); (1228, [1227]);
  (1230, [1229]); (1231, [1216]); (1233, [1232]); (1235, [1234]);
  (1237, [1236]); (1239, [1238]); (1241, [1240]); (1243, [1242]);
  (1245, [1244]); (1247, [1246]); (1249, [1248]); (1251, [1250]);
  (1253, [1252]); (1255, [1254]); (1257, [1256]); (1259, [1258]);
  (1261, [1260]); (1263, [1262]); (1265, [1264]); (1267, [1266]);
  (1269, [1268]); (1271, [1270]); (1273, [1272]); (1275, [1274]);
  (1277, [1276]); (1279, [1278]); (1281, [1280]); (1283, [1282]);
  (1285, [1284]); (1287, [1286]); (1289, [1288]); (1291, [1290]);
  (1293, [1292]); (1295, [1294]); (1297, [1296]); (1299, [1298]);
  (1301, [1300]); (1303, [1302]); (1305, [1304]); (1307, [1306]);
  (1309, [1308]); (1311, [1310]); (1313, [1312]); (1315, [1314]);
  (1317, [1316]); (1319, [1318]); (1321, [1320]); (1323, [1322]);
  (1325, [1324]); (1327, [1326]); (1377, [1329]); (1378, [1330]);
  (1379, [1331]); (1380, [1332]); (1381, [1333]); (1382, [1334]);
  (1383, [1335]); (1384, [1336]); (1385, [1337]); (1386, [1338]);
  (1387, [1339]); (1388, [1340]); (1389, [1341]); (1390, [1342]);
  (1391, [1343]); (1392, [1344]); (1393, [1345]); (1394, [1346]);
  (1395, [1347]); (1396, [1348]); (1397, [1349]); (1398, [1350]);
  (1399, [1351]); (1400, [1352]); (1401, [1353]); (1402, [1354]);
  (1403, [1355]); (1404, [1356]); (1405, [1357]); (1406, [1358]);
  (1407, [1359]); (1408, [1360]); (1409, [1361]); (1410, [1362]);
  (1411, [1363]); (1412, [1364]); (1413, [1365]); (1414, [1366]);
  (1415, [1333; 1362]); (4304, [7312]); (4305, [7313]); (4306, [7314]);
  (4307, [7315]); (4308, [7316]); (4309, [7317]); (4310, [7318]);
  (4311, [7319]); (4312, [7320]); (4313, [7321]); (4314, [7322]);
  (4315, [7323]); (4316, [7324]); (4317, [7325]); (4318, [7326]);
  (4319, [7327]); (4320, [7328]); (4321, [7329]); (4322, [7330]);
  (4323, [7331]); (4324, [7332]); (4325, [7333]); (4326, [7334]);
  (4327, [7335]); (4328, [7336]); (4329, [7337]); (4330, [7338]);
  (4331, [7339]); (4332, [7340]); (4333, [7341]); (4334, [7342]);
  (4335, [7343]); (4336, [7344]); (4337, [7345]); (4338, [7346]);
  (4339, [7347]); (4340, [7348]); (4341, [7349]); (4342, [7350]);
  (4343, [7351]); (4344, [7352]); (4345, [7353]); (4346, [7354]);
  (4349, [7357]); (4350, [7358]); (4351, [7359]); (5112, [5104]);
  (5113, [5105]); (5114, [5106]); (5115, [5107]); (5116, [5108]);
  (5117, [5109]); (7296, [1042]); (7297, [1044]); (7298, [1054]);
  (7299, [1057]); (7300, [1058]); (7301, [1058]); (7302, [1066]);
  (7303, [1122]); (7304, [42570]); (7545, [42877]); (7549, [11363]);
  (7566, [42950]); (7681, [7680]); (7683, [7682]); (7685, [7684]);
  (7687, [7686]); (7689, [7688]); (7691, [7690]); (7693, [7692]);
  (7695, [7694]); (7697, [7696]); (7699, [7698]); (7701, [7700]);
  (7703, [7702]); (7705, [7704]); (7707, [7706]); (7709, [7708]);
  (7711, [7710]); (7713, [7712]); (7715, [7714]); (7717, [7716]);
  (7719, [7718]); (7721, [7720]); (7723, [7722]); (7725, [7724]);
  (7727, [7726]); (7729, [7728]); (7731, [7730]); (7733, [7732]);
  (7735, [7734]); (7737, [7736]); (7739, [7738]); (7741, [7740]);
  (7743, [7742]); (7745, [7744]); (7747, [7746]); (7749, [7748]);
  (7751, [7750]); (7753, [7752]); (7755, [7754]); (7757, [7756]);
  (7759, [7758]); (7761, [7760]); (7763, [7762]); (7765, [7764]);
  (7767, [7766]); (7769, [7768]); (7771, [7770]); (7773, [7772]);
  (7775, [7774]); (7777, [7776]); (7779, [7778]); (7781, [7780]);
  (7783, [7782]); (7785, [7784]); (7787, [7786]); (7789, [7788]);
  (7791, [7790]); (7793, [7792]); (7795, [7794]); (7797, [7796]);
  (7799, [7798]); (7801, [7800]); (7803, [7802]); (7805, [7804]);
  (7807, [7806]); (7809, [7808]); (7811, [7810]); (7813, [7812]);
  (7815, [7814]); (7817, [7816]); (7819, [7818]); (7821, [7820]);
  (7823, [7822]); (7825, [7824]); (7827, [7826]); (7829, [7828]);
  (7830, [72; 817]); (7831, [84; 776]); (7832, [87; 778]); (7833, [89; 778]);
  (7834, [65; 702]); (7835, [7776]); (7841, [7840]); (7843, [7842]);
  (7845, [7844]); (7847, [7846]); (7849, [7848]); (7851, [7850]);
  (7853, [7852]); (7855, [7854]); (7857, [7856]); (7859, [7858]);
  (7861, [7860]); (7863, [7862]); (7865, [7864]); (7867, [7866]);
  (7869, [7868]); (7871, [7870]); (7873, [7872]); (7875, [7874]);
  (7877, [7876]); (7879, [7878]); (7881, [7880]); (7883, [7882]);
  (7885, [7884]); (7887, [7886]); (7889, [7888]); (7891, [7890]);
  (7893, [7892]); (7895, [7894]); (7897, [7896]); (7899, [7898]);
  (7901, [7900]); (7903, [7902]); (7905, [7904]); (7907, [7906]);
  (7909, [7908]); (7911, [7910]); (7913, [7912]); (7915, [7914]);
  (7917, [7916]); (7919, [7918]); (7921, [7920]); (7923, [7922]);
  (7925, [7924]); (7927, [7926]); (7929, [7928]); (7931, [7930]);
  (7933, [7932]); (7935, [7934]); (7936, [7944]); (7937, [7945]);
  (7938, [7946]); (7939, [7947]); (7940, [7948]); (7941, [7949]);
  (7942, [7950]); (7943, [7951]); (7952, [7960]); (7953, [7961]);
  (7954, [7962]); (7955, [7963]); (7956, [7964]); (7957, [7965]);
  (7968, [7976]); (7969, [7977]); (7970, [7978]); (7971, [7979]);
  (7972, [7980]); (7973, [7981]); (7974, [7982]); (7975, [7983]);
  (7984, [7992]); (7985, [7993]); (7986, [7994]); (7987, [7995]);
  (7988, [7996]); (7989, [7997]); (7990, [7998]); (7991, [7999]);
  (8000, [8008]); (8001, [8009]); (8002, [8010]); (8003, [8011]);
  (8004, [8012]); (8005, [8013]); (8016, [933; 787]); (8017, [8025]);
  (8018, [933; 787; 768]); (8019, [8027]); (8020, [933; 787; 769]);
  (8021, [8029]); (8022, [933; 787; 834]); (8023, [8031]); (8032, [8040]);
  (8033, [8041]); (8034, [8042]); (8035, [8043]); (8036, [8044]);
  (8037, [8045]); (8038, [8046]); (8039, [8047]); (8048, [8122]);
  (8049, [8123]); (8050, [8136]); (8051, [8137]); (8052, [8138]);
  (8053, [8139]); (8054, [8154]); (8055, [8155]); (8056, [8184]);
  (8057, [8185]); (8058, [8170]); (8059, [8171]); (8060, [8186]);
  (8061, [8187]); (8064, [7944; 921]); (8065, [7945; 921]);
  (8066, [7946; 921]); (8067, [7947; 921]); (8068, [7948; 921]);
  (8069, [7949; 921]); (8070, [7950; 921]); (8071, [7951; 921]);
  (8072, [7944; 921]); (8073, [7945; 921]); (8074, [7946; 921]);
  (8075, [7947; 921]); (8076, [7948; 921]); (8077, [7949; 921]);
  (8078, [7950; 921]); (8079, [7951; 921]); (8080, [7976; 921]);
  (8081, [7977; 921]); (8082, [7978; 921]); (8083, [7979; 921]);
  (8084, [7980; 921]); (8085, [7981; 921]); (8086, [7982; 921]);
  (8087, [7983; 921]); (8088, [7976; 921]); (8089, [7977; 921]);
  (8090, [7978; 921]); (8091, [7979; 921]); (8092, [7980; 921]);
  (8093, [7981; 921]); (8094, [7982; 921]); (8095, [7983; 921]);
  (8096, [8040; 921]); (8097, [8041; 921]); (8098, [8042; 921]);
  (8099, [8043; 921]); (8100, [8044; 921]); (8101, [8045; 921]);
  (8102, [8046; 921]); (8103, [8047; 921]); (8104, [8040; 921]);
  (8105, [8041; 921]); (8106, [8042; 921]); (8107, [8043; 921]);
  (8108, [8044; 921]); (8109, [8045; 921]); (8110, [8046; 921]);
  (8111, [8047; 921]); (8112, [8120]); (8113, [8121]); (8114, [8122; 921]);
  (8115, [913; 921]); (8116, [902; 921]); (8118, [913; 834]);
  (8119, [913; 834; 921]); (8124, [913; 921]); (8126, [921]);
  (8130, [8138; 921]); (8131, [919; 921]); (8132, [905; 921]);
  (8134, [919; 834]); (8135, [919; 834; 921]); (8140, [919; 921]);
  (8144, [8152]); (8145, [8153]); (8146, [921; 776; 768]);
  (8147, [921; 776; 769]); (8150, [921; 834]); (8151, [921; 776; 834]);
  (8160, [8168]); (8161, [8169]); (8162, [933; 776; 768]);
  (8163, [933; 776; 769]); (8164, [929; 787]); (8165, [8172]);
  (8166, [933; 834]); (8167, [933; 776; 834]); (8178, [8186; 921]);
  (8179, [937; 921]); (8180, [911; 921]); (8182, [937; 834]);
  (8183, [937; 834; 921]); (8188, [937; 921]); (8526, [8498]);
  (8560, [8544]); (8561, [8545]); (8562, [8546]); (8563, [8547]);
  (8564, [8548]); (8565, [8549]); (8566, [8550]); (8567, [8551]);
  (8568, [8552]); (8569, [8553]); (8570, [8554]); (8571, [8555]);
  (8572, [8556]); (8573, [8557]); (8574, [8558]); (8575, [8559]);
  (8580, [8579]); (9424, [9398]); (9425, [9399]); (9426, [9400]);
  (9427, [9401]); (9428, [9402]); (9429, [9403]); (9430, [9404]);
  (9431, [9405]); (9432, [9406]); (9433, [9407]); (9434, [9408]);
  (9435, [9409]); (9436, [9410]); (9437, [9411]); (9438, [9412]);
  (9439, [9413]); (9440, [9414]); (9441, [9415]); (9442, [9416]);
  (9443, [9417]); (9444, [9418]); (9445, [9419]); (9446, [9420]);
  (9447, [9421]); (9448, [9422]); (9449, [9423]); (11312, [11264]);
  (11313, [11265]); (11314, [11266]); (11315, [11267]); (11316, [11268]);
  (11317, [11269]); (11318, [11270]); (11319, [11271]); (11320, [11272]);
  (11321, [11273]); (11322, [11274]); (11323, [11275]); (11324, [11276]);
  (11325, [11277]); (11326, [11278]); (11327, [11279]); (11328, [11280]);
  (11329, [11281]); (11330, [11282]); (11331, [11283]); (11332, [11284]);
  (11333, [11285]); (11334, [11286]); (11335, [11287]); (11336, [11288]);
  (11337, [11289]); (11338, [11290]); (11339, [11291]); (11340, [11292]);
  (11341, [11293]); (11342, [11294]); (11343, [11295]); (11344, [11296]);
  (11345, [11297]); (11346, [11298]); (11347, [11299]); (11348, [11300]);
  (11349, [11301]); (11350, [11302]); (11351, [11303]); (11352, [11304]);
  (11353, [11305]); (11354, [11306]); (11355, [11307]); (11356, [11308]);
  (11357, [11309]); (11358, [11310]); (11359, [11311]); (11361, [11360]);
  (11365, [570]); (11366, [574]); (11368, [11367]); (11370, [11369]);
  (11372, [11371]); (11379, [11378]); (11382, [11381]); (11393, [11392]);
  (11395, [11394]); (11397, [11396]); (11399, [11398]); (11401, [11400]);
  (11403, [11402]); (11405, [11404]); (11407, [11406]); (11409, [11408]);
  (11411, [11410]); (11413, [11412]); (11415, [11414]); (11417, [11416]);
  (11419, [11418]); (11421, [11420]); (11423, [11422]); (11425, [11424]);
  (11427, [11426]); (11429, [11428]); (11431, [11430]); (11433, [11432]);
  (11435, [11434]); (11437, [11436]); (11439, [11438]); (11441, [11440]);
  (11443, [11442]); (11445, [11444]); (11447, [11446]); (11449, [11448]);
  (11451, [11450]); (11453, [11452]); (11455, [11454]); (11457, [11456]);
  (11459, [11458]); (11461, [11460]); (11463, [11462]); (11465, [11464]);
  (11467, [11466]); (11469, [11468]); (11471, [11470]); (11473, [11472]);
  (11475, [11474]); (11477, [11476]); (11479, [11478]); (11481, [11480]);
  (11483, [11482]); (11485, [11484]); (11487, [11486]); (11489, [11488]);
  (11491, [11490]); (11500, [11499]); (11502, [11501]); (11507, [11506]);
  (11520, [4256]); (11521, [4257]); (11522, [4258]); (11523, [4259]);
  (11524, [4260]); (11525, [4261]); (11526, [4262]); (11527, [4263]);
  (11528, [4264]); (11529, [4265]); (11530, [4266]); (11531, [4267]);
  (11532, [4268]); (11533, [4269]); (11534, [4270]); (11535, [4271]);
  (11536, [4272]); (11537, [4273]); (11538, [4274]); (11539, [4275]);
  (11540, [4276]); (11541, [4277]); (11542, [4278]); (11543, [4279]);
  (11544, [4280]); (11545, [4281]); (11546, [4282]); (11547, [4283]);
  (11548, [4284]); (11549, [4285]); (11550, [4286]); (11551, [4287]);
  (11552, [4288]); (11553, [4289]); (11554, [4290]); (11555, [4291]);
  (11556, [4292]); (11557, [4293]); (11559, [4295]); (11565, [4301]);
  (42561, [42560]); (42563, [42562]); (42565, [42564]); (42567, [42566]);
  (42569, [42568]); (42571, [42570]); (42573, [42572]); (42575, [42574]);
  (42577, [42576]); (42579, [42578]); (42581, [42580]); (42583, [42582]);
  (42585, [42584]); (42587, [42586]); (42589, [42588]); (42591, [42590]);
  (42593, [42592]); (42595, [42594]); (42597, [42596]); (42599, [42598]);
  (42601, [42600]); (42603, [42602]); (42605, [42604]); (42625, [42624]);
  (42627, [42626]); (42629, [42628]); (42631, [42630]); (42633, [42632]);
  (42635, [42634]); (42637, [42636]); (42639, [42638]); (42641, [42640]);
  (42643, [42642]); (42645, [42644]); (42647, [42646]); (42649, [42648]);
  (42651, [42650]); (42787, [42786]); (42789, [42788]); (42791, [42790]);
  (42793, [42792]); (42795, [42794]); (42797, [42796]); (42799, [42798]);
  (42803, [42802]); (42805, [42804]); (42807, [42806]); (42809, [42808]);
  (42811, [42810]); (42813, [42812]); (42815, [42814]); (42817, [42816]);
  (42819, [42818]); (42821, [42820]); (42823, [42822]); (42825, [42824]);
  (42827, [42826]); (42829, [42828]); (42831, [42830]); (42833, [42832]);
  (42835, [42834]); (42837, [42836]); (42839, [42838]); (42841, [42840]);
  (42843, [42842]); (42845, [42844]); (42847, [42846]); (42849, [42848]);
  (42851, [42850]); (42853, [42852]); (42855, [42854]); (42857, [42856]);
  (42859, [42858]); (42861, [42860]); (42863, [42862]); (42874, [42873]);
  (42876, [42875]); (42879, [42878]); (42881, [42880]); (42883, [42882]);
  (42885, [42884]); (42887, [42886]); (42892, [42891]); (42897, [42896]);
  (42899, [42898]); (42900, [42948]); (42903, [42902]); (42905, [42904]);
  (42907, [42906]); (42909, [42908]); (42911, [42910]); (42913, [42912]);
  (42915, [42914]); (42917, [42916]); (42919, [42918]); (42921, [42920]);
  (42933, [42932]); (42935, [42934]); (42937, [42936]); (42939, [42938]);
  (42941, [42940]); (42943, [42942]); (42945, [42944]); (42947, [42946]);
  (42952, [42951]); (42954, [42953]); (42961, [42960]); (42967, [42966]);
  (42969, [42968]); (42998, [42997]); (43859, [42931]); (43888, [5024]);
  (43889, [5025]); (43890, [5026]); (43891, [5027]); (43892, [5028]);
  (43893, [5029]); (43894, [5030]); (43895, [5031]); (43896, [5032]);
  (43897, [5033]); (43898, [5034]); (43899, [5035]); (43900, [5036]);
  (43901, [5037]); (43902, [5038]); (43903, [5039]); (43904, [5040]);
  (43905, [5041]); (43906, [5042]); (43907, [5043]); (43908, [5044]);
  (43909, [5045]); (43910, [5046]); (43911, [5047]); (43912, [5048]);
  (43913, [5049]); (43914, [5050]); (43915, [5051]); (43916, [5052]);
  (43917, [5053]); (43918, [5054]); (43919, [5055]); (43920, [5056]);
  (43921, [5057]); (43922, [5058]); (43923, [5059]); (43924, [5060]);
  (43925, [5061]); (43926, [5062]); (43927, [5063]); (43928, [5064]);
  (43929, [5065]); (43930, [5066]); (43931, [5067]); (43932, [5068]);
  (43933, [5069]); (43934, [5070]); (43935, [5071]); (43936, [5072]);
  (43937, [5073]); (43938, [5074]); (43939, [5075]); (43940, [5076]);
  (43941, [5077]); (43942, [5078]); (43943, [5079]); (43944, [5080]);
  (43945, [5081]); (43946, [5082]); (43947, [5083]); (43948, [5084]);
  (43949, [5085]); (43950, [5086]); (43951, [5087]); (43952, [5088]);
  (43953, [5089]); (43954, [5090]); (43955, [5091]); (43956, [5092]);
  (43957, [5093]); (43958, [5094]); (43959, [5095]); (43960, [5096]);
  (43961, [5097]); (43962, [5098]); (43963, [5099]); (43964, [5100]);
  (43965, [5101]); (43966, [5102]); (43967, [5103]); (64256, [70; 70]);
  (64257, [70; 73]); (64258, [70; 76]); (64259, [70; 70; 73]);
  (64260, [70; 70; 76]); (64261, [83; 84]); (64262, [83; 84]);
  (64275, [1348; 1350]); (64276, [1348; 1333]); (64277, [1348; 1339]);
  (64278, [1358; 1350]); (64279, [1348; 1341]); (65345, [65313]);
  (65346, [65314]); (65347, [65315]); (65348, [65316]); (65349, [65317]);
  (65350, [65318]); (65351, [65319]); (65352, [65320]); (65353, [65321]);
  (65354, [65322]); (65355, [65323]); (65356, [65324]); (65357, [65325]);
  (65358, [65326]); (65359, [65327]); (65360, [65328]); (65361, [65329]);
  (65362, [65330]); (65363, [65331]); (65364, [65332]); (65365, [65333]);
  (65366, [65334]); (65367, [65335]); (65368, [65336]); (65369, [65337]);
  (65370, [65338]); (66600, [66560]); (66601, [66561]); (66602, [66562]);
  (66603, [66563]); (66604, [66564]); (66605, [66565]); (66606, [66566]);
  (66607, [66567]); (66608, [66568]); (66609, [66569]); (66610, [66570]);
  (66611, [66571]); (66612, [66572]); (66613, [66573]); (66614, [66574]);
  (66615, [66575]); (66616, [66576]); (66617, [66577]); (66618, [66578]);
  (66619, [66579]); (66620, [66580]); (66621, [66581]); (66622, [66582]);
  (66623, [66583]); (66624, [66584]); (66625, [66585]); (66626, [66586]);
  (66627, [66587]); (66628, [66588]); (66629, [66589]); (66630, [66590]);
  (66631, [66591]); (66632, [66592]); (66633, [66593]); (66634, [66594]);
  (66635, [66595]); (66636, [66596]); (66637, [66597]); (66638, [66598]);
  (66639, [66599]); (66776, [66736]); (66777, [66737]); (66778, [66738]);
  (66779, [66739]); (66780, [66740]); (66781, [66741]); (66782, [66742]);
  (66783, [66743]); (66784, [66744]); (66785, [66745]); (66786, [66746]);
  (66787, [66747]); (66788, [66748]); (66789, [66749]); (66790, [66750]);
  (66791, [66751]); (66792, [66752]); (66793, [66753]); (66794, [66754]);
  (66795, [66755]); (66796, [66756]); (66797, [66757]); (66798, [66758]);
  (66799, [66759]); (66800, [66760]); (66801, [66761]); (66802, [66762]);
  (66803, [66763]); (66804, [66764]); (66805, [66765]); (66806, [66766]);
  (66807, [66767]); (66808, [66768]); (66809, [66769]); (66810, [66770]);
  (66811, [66771]); (66967, [66928]); (66968, [66929]); (66969, [66930]);
  (66970, [66931]); (66971, [66932]); (66972, [66933]); (66973, [66934]);
  (66974, [66935]); (66975, [66936]); (66976, [66937]); (66977, [66938]);
  (66979, [66940]); (66980, [66941]); (66981, [66942]); (66982, [66943]);
  (66983, [66944]); (66984, [66945]); (66985, [66946]); (66986, [66947]);
  (66987, [66948]); (66988, [66949]); (66989, [66950]); (66990, [66951]);
  (66991, [66952]); (66992, [66953]); (66993, [66954]); (66995, [66956]);
  (66996, [66957]); (66997, [66958]); (66998, [66959]); (66999, [66960]);
  (67000, [66961]); (67001, [66962]); (67003, [66964]); (67004, [66965]);
  (68800, [68736]); (68801, [68737]); (68802, [68738]); (68803, [68739]);
  (68804, [68740]); (68805, [68741]); (68806, [68742]); (68807, [68743]);
  (68808, [68744]); (68809, [68745]); (68810, [68746]); (68811, [68747]);
  (68812, [68748]); (68813, [68749]); (68814, [68750]); (68815, [68751]);
  (68816, [68752]); (68817, [68753]); (68818, [68754]); (68819, [68755]);
  (68820, [68756]); (68821, [68757]); (68822, [68758]); (68823, [68759]);
  (68824, [68760]); (68825, [68761]); (68826, [68762]); (68827, [68763]);
  (68828, [68764]); (68829, [68765]); (68830, [68766]); (68831, [68767]);
  (68832, [68768]); (68833, [68769]); (68834, [68770]); (68835, [68771]);
  (68836, [68772]); (68837, [68773]); (68838, [68774]); (68839, [68775]);
  (68840, [68776]); (68841, [68777]); (68842, [68778]); (68843, [68779]);
  (68844, [68780]); (68845, [68781]); (68846, [68782]); (68847, [68783]);
  (68848, [68784]); (68849, [68785]); (68850, [68786]); (71872, [71840]);
  (71873, [71841]); (71874, [71842]); (71875, [71843]); (71876, [71844]);
  (71877, [71845]); (71878, [71846]); (71879, [71847]); (71880, [71848]);
  (71881, [71849]); (71882, [71850]); (71883, [71851]); (71884, [71852]);
  (71885, [71853]); (71886, [71854]); (71887, [71855]); (71888, [71856]);
  (71889, [71857]); (71890, [71858]); (71891, [71859]); (71892, [71860]);
  (71893, [71861]); (71894, [71862]); (71895, [71863]); (71896, [71864]);
  (71897, [71865]); (71898, [71866]); (71899, [71867]); (71900, [71868]);
  (71901, [71869]); (71902, [71870]); (71903, [71871]); (93792, [93760]);
  (93793, [93761]); (93794, [93762]); (93795, [93763]); (93796, [93764]);
  (93797, [93765]); (93798, [93766]); (93799, [93767]); (93800, [93768]);
  (93801, [93769]); (93802, [93770]); (93803, [93771]); (93804, [93772]);
  (93805, [93773]); (93806, [93774]); (93807, [93775]); (93808, [93776]);
  (93809, [93777]); (93810, [93778]); (93811, [93779]); (93812, [93780]);
  (93813, [93781]); (93814, [93782]); (93815, [93783]); (93816, [93784]);
  (93817, [93785]); (93818, [93786]); (93819, [93787]); (93820, [93788]);
  (93821, [93789]); (93822, [93790]); (93823, [93791]); (125218, [125184]);
  (125219, [125185]); (125220, [125186]); (125221, [125187]);
  (125222, [125188]); (125223, [125189]); (125224, [125190]);
  (125225, [125191]); (125226, [125192]); (125227, [125193]);
  (125228, [125194]); (125229, [125195]); (125230, [125196]);
  (125231, [125197]); (125232, [125198]); (125233, [125199]);
  (125234, [125200]); (125235, [125201]); (125236, [125202]);
  (125237, [125203]); (125238, [125204]); (125239, [125205]);
  (125240, [125206]); (125241, [125207]); (125242, [125208]);
  (125243, [125209]); (125244, [125210]); (125245, [125211]);
  (125246, [125212]); (125247, [125213]); (125248, [125214]);
  (125249, [125215]); (125250, [125216]); (125251, [125217])
]%N.

(** [c.upper()] for one character. *)
Definition upper_char (c : char) : pystr :=
  match find (fun e => (fst e =? c)%N) upper_table with
  | Some e => snd e
  | None => [c]
  end.
Arguments upper_char : simpl never.

(** [s.upper()] *)
Definition upper (s : pystr) : pystr := flat_map upper_char s.

(** [s.lstrip(chars)], the stripped set given as a predicate. *)
Fixpoint lstrip_by (p : char -> bool) (s : pystr) : pystr :=
  match s with
  | [] => []
  | c :: t => if p c then lstrip_by p t else s
  end.

Definition rstrip_by (p : char -> bool) (s : pystr) : pystr :=
  rev (lstrip_by p (rev s)).

(** [s.strip()] *)
Definition strip (s : pystr) : pystr :=
  rstrip_by is_space (lstrip_by is_space s).

(** [s.lstrip("0")] *)
Definition strip_zeros (s : pystr) : pystr := lstrip_by (N.eqb (ch "0")) s.

(** [s.replace(" ", "")] *)
Definition remove_spaces (s : pystr) : pystr :=
  filter (fun c => negb (N.eqb c (ch " "))) s.

(** [re.sub(r"[^0-9]", "", s)] *)
Definition sub_non_digits (s : pystr) : pystr := filter is_digit s.

Fixpoint startswith (p s : pystr) : bool :=
  match p, s with
  | [], _ => true
  | _ :: _, [] => false
  | a :: p', b :: s' => N.eqb a b && startswith p' s'
  end.

(** [sub in s] *)
Fixpoint contains (sub s : pystr) : bool :=
  startswith sub s ||
  match s with
  | [] => false
  | _ :: t => contains sub t
  end.

(** [s.split(sep, 1)[0]]: the text before the first [sep], all of [s] when
    there is none. *)
Fixpoint split_head (sep s : pystr) : pystr :=
  if startswith sep s then []
  else match s with
       | [] => []
       | c :: t => c :: split_head sep t
       end.

(** [sep.join(parts)] *)
Fixpoint join (sep : pystr) (parts : list pystr) : pystr :=
  match parts with
  | [] => []
  | [p] => p
  | p :: rest => p ++ sep ++ join sep rest
  end.

Definition pystr_eqb (a b : pystr) : bool :=
  if list_eq_dec N.eq_dec a b then true else false.

(** *** Decimal form of an integer, [str(n)] *)

Definition digit_char (d : N) : char := (48 + d)%N.

Fixpoint digits_of (fuel : nat) (n : N) : pystr :=
  match fuel with
  | O => []
  | S f =>
      if (n <? 10)%N then [digit_char n]
      else digits_of f (n / 10) ++ [digit_char (n mod 10)]
  end.

Definition str_N (n : N) : pystr := digits_of (S (N.to_nat (N.log2 n))) n.

Definition str_Z (z : Z) : pystr :=
  if (z <? 0)%Z then ch "-" :: str_N (Z.abs_N z) else str_N (Z.abs_N z).

Definition str_nat (n : nat) : pystr := str_N (N.of_nat n).

End PyStr.

Import PyStr.

(* ------------------------------------------------------------------ *)
(** ** Cell values and the field normalizers *)

(** What [pd.read_excel] puts in a cell. [CMissing] is the NaN of an empty
    cell. [CFloatInt z] is a float whose value is the integer [z]; its string
    form is positional ([7.0]) for [|z| < 10^16], which is the range the model
    covers. *)
Inductive cell : Type :=
| CMissing
| CStr (s : pystr)
| CInt (z : Z)
| CFloatInt (z : Z)
| CBool (b : bool).

(** [pd.isna(x)] *)
Definition isna (x : cell) : bool :=
  match x with
  | CMissing => true
  | _ => false
  end.

(** [str(x)] *)
Definition py_str (x : cell) : pystr :=
  match x with
  | CMissing => lit "nan"
  | CStr s => s
  | CInt z => str_Z z
  | CFloatInt z => str_Z z ++ lit ".0"
  | CBool true => lit "True"
  | CBool false => lit "False"
  end.

Definition marker : pystr := lit ">>".

Definition clean_model (x : cell) : pystr :=
  if isna x then []
  else
    let s := py_str x in
    if contains marker s then strip (split_head marker s) else strip s.

Definition norm_po (x : cell) : pystr :=
  remove_spaces (upper (strip (py_str x))).

(** [s.lstrip("0") or "0"] after the substitution. *)
Definition norm_line (x : cell) : pystr :=
  let s := sub_non_digits (py_str x) in
  match strip_zeros s with
  | [] => lit "0"
  | r => r
  end.

Definition norm_loc_sap (x : cell) : pystr :=
  let code := strip (py_str x) in
  if pystr_eqb code (lit "2913") then lit "EDMONTON" else upper code.

Definition norm_loc_oo (x : cell) : pystr :=
  upper (strip (py_str x)).

(* ------------------------------------------------------------------ *)
(** ** Errors *)

(** The exceptions that can arise below, each with its message. *)
Inductive exn : Type :=
| IndexError (msg : pystr)
| KeyError (msg : pystr).

(** [str(e)] *)
Definition exn_str (e : exn) : pystr :=
  match e with
  | IndexError m => m
  | KeyError m => m
  end.

Inductive result (A : Type) : Type :=
| Ok (a : A)
| Raise (e : exn).
Arguments Ok {A} a.
Arguments Raise {A} e.

Definition bind {A B : Type} (r : result A) (k : A -> result B) : result B :=
  match r with
  | Ok a => k a
  | Raise e => Raise e
  end.

Notation "x <- r ;; k" := (bind r (fun x => k))
  (at level 61, r at next level, right associativity).

(* ------------------------------------------------------------------ *)
(** ** Row extractors *)

(** A parsed sheet: [ncols] columns and the data rows. A row shorter than
    [ncols] is padded with missing cells, as the parser does. *)
Record RawTable : Type := {
  ncols : nat;
  rows : list (list cell)
}.

Record CanonicalRow : Type := {
  po : pystr;
  po_item : pystr;
  model : pystr;
  location : pystr
}.

Definition cell_at (j : nat) (r : list cell) : cell := nth j r CMissing.

(** The error of an [iloc] selection outside the frame. *)
Definition out_of_bounds : exn :=
  IndexError (lit "positional indexers are out-of-bounds").

(** [df.iloc[:, [a, b, c, d]]]: pandas refuses the whole selection when one
    position is not a column of the frame. *)
Definition iloc4 (df : RawTable) (a b c d : nat)
  : result (list (cell * cell * cell * cell)) :=
  if forallb (fun j => j <? ncols df) [a; b; c; d]
  then Ok (map (fun r => (cell_at a r, cell_at b r, cell_at c r, cell_at d r))
               (rows df))
  else Raise out_of_bounds.

Definition extract_sap_four (df : RawTable) : result (list CanonicalRow) :=
  sap <- iloc4 df 2 3 6 7 ;;
  Ok (map (fun '(c_po, c_location, c_po_item, c_model) =>
             {| po := norm_po c_po;
                po_item := norm_line c_po_item;
                model := clean_model c_model;
                location := norm_loc_sap c_location |}) sap).

Definition extract_oo_four (df : RawTable) : result (list CanonicalRow) :=
  oo <- iloc4 df 13 14 16 9 ;;
  Ok (map (fun '(c_po, c_po_item, c_model, c_location) =>
             {| po := norm_po c_po;
                po_item := norm_line c_po_item;
                model := clean_model c_model;
                location := norm_loc_oo c_location |}) oo).

(* ------------------------------------------------------------------ *)
(** ** Row-by-row comparator *)

(** A record of [discrepancy_rows]: the columns "Excel Row" and
    "What’s Different". *)
Record DiscrepancyRecord : Type := {
  d_excel_row : nat;
  d_whats_different : pystr
}.

(** A record of [combined_rows]. *)
Record CombinedRecord : Type := {
  c_excel_row : nat;
  c_sap : CanonicalRow;
  c_oo : CanonicalRow;
  c_equivalent : pystr
}.

Record LoopState : Type := {
  equivalent_rows : nat;
  discrepancy_rows : list DiscrepancyRecord;
  combined_rows : list CombinedRecord
}.

Definition check_mark : pystr := lit "✅".
Definition cross_mark : pystr := lit "❌".

(** [issues.append(text)] when the two values differ. *)
Definition append_if_differ (a b : pystr) (text : pystr) (issues : list pystr)
  : list pystr :=
  if negb (pystr_eqb a b) then issues ++ [text] else issues.

Definition issue_po (s o : CanonicalRow) : pystr :=
  lit "PO #: SAP=" ++ po s ++ lit " vs OO=" ++ po o.
Definition issue_po_item (s o : CanonicalRow) : pystr :=
  lit "PO Item: SAP=" ++ po_item s ++ lit " vs OO=" ++ po_item o.
Definition issue_model (s o : CanonicalRow) : pystr :=
  lit "Model: SAP='" ++ model s ++ lit "' vs OO='" ++ model o ++ lit "'".
Definition issue_location (s o : CanonicalRow) : pystr :=
  lit "Location: SAP='" ++ location s ++ lit "' vs OO='" ++ location o ++ lit "'".

(** The four [if] statements of the loop body. *)
Definition row_issues (sap_row oo_row : CanonicalRow) : list pystr :=
  let issues := [] in
  let issues := append_if_differ (po sap_row) (po oo_row)
                  (issue_po sap_row oo_row) issues in
  let issues := append_if_differ (po_item sap_row) (po_item oo_row)
                  (issue_po_item sap_row oo_row) issues in
  let issues := append_if_differ (model sap_row) (model oo_row)
                  (issue_model sap_row oo_row) issues in
  let issues := append_if_differ (location sap_row) (location oo_row)
                  (issue_location sap_row oo_row) issues in
  issues.

(** [frame.loc[i]] on a frame whose index is [0 .. len-1]. *)
Definition loc (frame : list CanonicalRow) (i : nat) : result CanonicalRow :=
  match nth_error frame i with
  | Some r => Ok r
  | None => Raise (KeyError (str_nat i))
  end.

Definition loop_body (sap_rows oo_rows : list CanonicalRow) (i : nat)
  (st : LoopState) : result LoopState :=
  sap_row <- loc sap_rows i ;;
  oo_row <- loc oo_rows i ;;
  let issues := row_issues sap_row oo_row in
  let combined :=
    combined_rows st ++
      [ {| c_excel_row := i + 2;
           c_sap := sap_row;
           c_oo := oo_row;
           c_equivalent := if is_empty issues then check_mark else cross_mark |} ] in
  if negb (is_empty issues)
  then Ok {| equivalent_rows := equivalent_rows st;
             discrepancy_rows :=
               discrepancy_rows st ++
                 [ {| d_excel_row := i + 2;
                      d_whats_different := join (lit " | ") issues |} ];
             combined_rows := combined |}
  else Ok {| equivalent_rows := equivalent_rows st + 1;
             discrepancy_rows := discrepancy_rows st;
             combined_rows := combined |}.

(** [for i in range(start, start + count)] *)
Fixpoint for_range {A : Type} (body : nat -> A -> result A)
  (start count : nat) (st : A) : result A :=
  match count with
  | O => Ok st
  | S k => st' <- body start st ;; for_range body (S start) k st'
  end.

(** What [compare_row_by_row] returns. *)
Record Comparison : Type := {
  rows_checked : nat;
  rows_equivalent : nat;
  discrepancy_df : list DiscrepancyRecord;
  combined_df : list CombinedRecord;
  sap_len : nat;
  oo_len : nat
}.

Definition compare_row_by_row (sap_four oo_four : list CanonicalRow)
  : result Comparison :=
  let n := Nat.min (List.length sap_four) (List.length oo_four) in
  let sap_rows := firstn n sap_four in
  let oo_rows := firstn n oo_four in
  st <- for_range (loop_body sap_rows oo_rows) 0 n
          {| equivalent_rows := 0; discrepancy_rows := []; combined_rows := [] |} ;;
  Ok {| rows_checked := n;
        rows_equivalent := equivalent_rows st;
        discrepancy_df := discrepancy_rows st;
        combined_df := combined_rows st;
        sap_len := List.length sap_four;
        oo_len := List.length oo_four |}.

(* ------------------------------------------------------------------ *)
(** ** The page script after "Compare", both files already parsed *)

Definition quotechar : char := 34%N.

(** One field as the CSV writer puts it (minimal quoting): quoted when it
    holds the delimiter, the quote character or a character of the line
    terminator, which is [os.linesep], LF or CR LF; the quote character is
    doubled. *)
Definition csv_field (linesep f : pystr) : pystr :=
  if existsb (fun c => N.eqb c (ch ",") || N.eqb c quotechar
                       || (N.eqb c 10 || N.eqb c 13) && existsb (N.eqb c) linesep) f
  then quotechar :: flat_map (fun c => if N.eqb c quotechar then [c; c] else [c]) f
         ++ [quotechar]
  else f.

Definition csv_line (linesep : pystr) (fields : list pystr) : pystr :=
  join (lit ",") (map (csv_field linesep) fields) ++ linesep.

Definition discrepancy_columns : list pystr :=
  [lit "Excel Row"; lit "What’s Different"].

(** [disc_df.to_csv(index=False)] for a frame with at least one record: the
    text that the download holds, encoded as UTF-8. *)
Definition to_csv (linesep : pystr) (df : list DiscrepancyRecord) : pystr :=
  csv_line linesep discrepancy_columns ++
  flat_map (fun d => csv_line linesep [str_nat (d_excel_row d); d_whats_different d]) df.

Record Report : Type := {
  metric_rows_checked : nat;
  metric_rows_equivalent : nat;
  metric_rows_with_discrepancies : Z;
  length_notice : option pystr;
  row_view : list CombinedRecord;
  discrepancy_view : list DiscrepancyRecord;
  download_csv : option pystr
}.

Inductive Outcome : Type :=
| Stopped (message : pystr)      (* [st.error(...)] then [st.stop()] *)
| Crashed (e : exn)              (* an exception nobody catches *)
| Rendered (r : Report).

Definition render (linesep : pystr) (cmp : Comparison) : Report :=
  {| metric_rows_checked := rows_checked cmp;
     metric_rows_equivalent := rows_equivalent cmp;
     metric_rows_with_discrepancies :=
       (Z.of_nat (rows_checked cmp) - Z.of_nat (rows_equivalent cmp))%Z;
     length_notice :=
       if negb (sap_len cmp =? oo_len cmp)
       then Some (lit "Files differ in length. SAP rows: **" ++ str_nat (sap_len cmp)
                  ++ lit "**, OO rows: **" ++ str_nat (oo_len cmp)
                  ++ lit "**. Only the first **" ++ str_nat (rows_checked cmp)
                  ++ lit "** rows were compared.")
       else None;
     row_view := combined_df cmp;
     discrepancy_view := discrepancy_df cmp;
     download_csv :=
       if is_empty (discrepancy_df cmp) then None
       else Some (to_csv linesep (discrepancy_df cmp)) |}.

Definition run (linesep : pystr) (sap_df oo_df : RawTable) : Outcome :=
  match (sap_four <- extract_sap_four sap_df ;;
         oo_four <- extract_oo_four oo_df ;;
         Ok (sap_four, oo_four)) with
  | Raise e => Stopped (lit "Column extraction failed. Error: " ++ exn_str e)
  | Ok (sap_four, oo_four) =>
      match compare_row_by_row sap_four oo_four with
      | Raise e => Crashed e
      | Ok cmp => Rendered (render linesep cmp)
      end
  end.

(* ------------------------------------------------------------------ *)
(** ** The specification's wording, for comparison with the code *)


(** PO-number normalizer as worded: trim, drop the spaces, upper-case. *)
Definition spec_po (s : pystr) : pystr :=
  upper (remove_spaces (strip s)).


Inductive field : Type := FPo | FPoItem | FModel | FLocation.

Definition field_order : list field := [FPo; FPoItem; FModel; FLocation].

Definition field_value (f : field) (r : CanonicalRow) : pystr :=
  match f with
  | FPo => po r
  | FPoItem => po_item r
  | FModel => model r
  | FLocation => location r
  end.

Definition field_label (f : field) : pystr :=
  match f with
  | FPo => lit "PO #"
  | FPoItem => lit "PO Item"
  | FModel => lit "Model"
  | FLocation => lit "Location"
  end.

Definition starts_with_label (f : field) (text : pystr) : bool :=
  startswith (field_label f ++ lit ": SAP=") text.

(** The fields on which two canonical rows differ, in the fixed order. *)
Definition differing_fields (s o : CanonicalRow) : list field :=
  filter (fun f => negb (pystr_eqb (field_value f s) (field_value f o))) field_order.

Definition describe (f : field) (s o : CanonicalRow) : pystr :=
  match f with
  | FPo => issue_po s o
  | FPoItem => issue_po_item s o
  | FModel => issue_model s o
  | FLocation => issue_location s o
  end.

(** A text names both values when it holds them one after the other. *)
Definition names_both (text a b : pystr) : Prop :=
  exists pre mid post, text = pre ++ a ++ mid ++ b ++ post.

(** The records the loop builds for the pair of rows at index [i]. *)
Definition combined_of (i : nat) (s o : CanonicalRow) : CombinedRecord :=
  {| c_excel_row := i + 2;
     c_sap := s;
     c_oo := o;
     c_equivalent := if is_empty (row_issues s o) then check_mark else cross_mark |}.

Definition discrepancy_of (i : nat) (s o : CanonicalRow) : DiscrepancyRecord :=
  {| d_excel_row := i + 2;
     d_whats_different := join (lit " | ") (row_issues s o) |}.

Definition equivalent_pair (so : CanonicalRow * CanonicalRow) : bool :=
  is_empty (row_issues (fst so) (snd so)).

(** The two views and the count over a list of paired rows, the first pair
    at index [i]. *)
Fixpoint combined_from (i : nat) (pairs : list (CanonicalRow * CanonicalRow))
  : list CombinedRecord :=
  match pairs with
  | [] => []
  | (s, o) :: rest => combined_of i s o :: combined_from (S i) rest
  end.

Fixpoint discrepancies_from (i : nat) (pairs : list (CanonicalRow * CanonicalRow))
  : list DiscrepancyRecord :=
  match pairs with
  | [] => []
  | (s, o) :: rest =>
      if equivalent_pair (s, o) then discrepancies_from (S i) rest
      else discrepancy_of i s o :: discrepancies_from (S i) rest
  end.

Definition count_equivalent (pairs : list (CanonicalRow * CanonicalRow)) : nat :=
  List.length (filter equivalent_pair pairs).

Definition csv_header : pystr := lit "Excel Row,What’s Different".

Inductive source : Type := SAP | OpenOrders.

(** The first extractor to fail in [run], and the lowest position it asks
    for that the sheet lacks. *)
Definition failing_extraction (sap_df oo_df : RawTable) : source * nat :=
  if ncols sap_df <=? 7
  then (SAP, if ncols sap_df <=? 2 then 2 else
             if ncols sap_df <=? 3 then 3 else
             if ncols sap_df <=? 6 then 6 else 7)
  else (OpenOrders, if ncols oo_df <=? 9 then 9 else
                    if ncols oo_df <=? 13 then 13 else
                    if ncols oo_df <=? 14 then 14 else 16).

Definition extraction_message : pystr :=
  lit "Column extraction failed. Error: positional indexers are out-of-bounds".

(** *** Sample sheets *)

Definition lf : pystr := [10%N].

Definition text_row (cells : list string) : list cell :=
  map (fun c => CStr (lit c)) cells.

(** Eight columns: PO at 2, location at 3, item at 6, model at 7. *)
Definition sap_sheet : RawTable :=
  {| ncols := 8;
     rows := [ text_row ["a"; "b"; "PO1"; "2913"; "e"; "f"; "7"; "X"]%string;
               text_row ["a"; "b"; "PO2"; "yeg"; "e"; "f"; "010"; "Y >> old"]%string;
               text_row ["a"; "b"; "PO3"; "yyc"; "e"; "f"; "3"; "Z"]%string ] |}.

(** Seventeen columns: location at 9, PO at 13, item at 14, model at 16. *)
Definition oo_sheet : RawTable :=
  {| ncols := 17;
     rows := [ text_row ["0"; "1"; "2"; "3"; "4"; "5"; "6"; "7"; "8"; "edmonton";
                         "10"; "11"; "12"; "po 1"; "007"; "15"; "X >> v2"]%string;
               text_row ["0"; "1"; "2"; "3"; "4"; "5"; "6"; "7"; "8"; "YYC";
                         "10"; "11"; "12"; "PO2"; "10"; "15"; "W"]%string ] |}.

Definition narrow_sap_sheet : RawTable := {| ncols := 3; rows := [] |}.
Definition narrow_oo_sheet : RawTable := {| ncols := 10; rows := [] |}.

Definition row4 (a b c d : string) : CanonicalRow :=
  {| po := lit a; po_item := lit b; model := lit c; location := lit d |}.

Definition sap_table : list CanonicalRow :=
  [ row4 "PO1" "7" "X" "EDMONTON"; row4 "PO2" "10" "Y" "YEG"; row4 "PO3" "3" "Z" "YYC" ].

Definition oo_table : list CanonicalRow :=
  [ row4 "PO1" "7" "X" "EDMONTON"; row4 "PO2" "10" "W" "YYC" ].

(** *** Notions for the further properties *)

Definition digit_value (c : char) : N := (c - 48)%N.

(** The number a digit string spells. *)
Definition number_of (s : pystr) : N :=
  fold_left (fun acc c => (acc * 10 + digit_value c)%N) s 0%N.

(** A digit string is "0" or starts with another digit. *)
Definition no_leading_zero (s : pystr) : Prop :=
  s = lit "0" \/ exists c r, s = c :: r /\ c <> (ch "0").

(** What the normalizers guarantee of the four fields of a row. *)
Definition canonical_row (r : CanonicalRow) : Prop :=
  (~ In (ch " ") (po r) /\ upper (po r) = po r /\ strip (po r) = po r) /\
  (forallb is_digit (po_item r) = true /\ no_leading_zero (po_item r)) /\
  (contains marker (model r) = false /\ strip (model r) = model r) /\
  (upper (location r) = location r /\ strip (location r) = location r).

(** The canonical row [extract_sap_four] builds from one sheet row. *)
Definition sap_row_of (r : list cell) : CanonicalRow :=
  {| po := norm_po (cell_at 2 r);
     po_item := norm_line (cell_at 6 r);
     model := clean_model (cell_at 7 r);
     location := norm_loc_sap (cell_at 3 r) |}.

(** The canonical row [extract_oo_four] builds from one sheet row. *)
Definition oo_row_of (r : list cell) : CanonicalRow :=
  {| po := norm_po (cell_at 13 r);
     po_item := norm_line (cell_at 14 r);
     model := clean_model (cell_at 16 r);
     location := norm_loc_oo (cell_at 9 r) |}.

(** The characters of a printed number: digits, the sign and the point. *)
Definition is_plain (c : char) : bool :=
  is_digit c || N.eqb c (ch "-") || N.eqb c (ch ".").

(** A record of a view moved [k] rows down. *)
Definition shift_discrepancy (k : nat) (d : DiscrepancyRecord) : DiscrepancyRecord :=
  {| d_excel_row := d_excel_row d + k;
     d_whats_different := d_whats_different d |}.

Definition shift_combined (k : nat) (c : CombinedRecord) : CombinedRecord :=
  {| c_excel_row := c_excel_row c + k;
     c_sap := c_sap c;
     c_oo := c_oo c;
     c_equivalent := c_equivalent c |}.

(** The first character, if any, is one that [lstrip_by p] keeps. *)
Definition head_kept (p : char -> bool) (s : pystr) : bool :=
  match s with
  | [] => true
  | c :: _ => negb (p c)
  end.

(** A text with no whitespace at either end. *)
Definition trimmed (m : pystr) : Prop :=
  head_kept is_space m = true /\ head_kept is_space (rev m) = true.

(** [m] is what is left of [s] once the whitespace at its two ends is taken
    away. *)
Definition trim_of (s m : pystr) : Prop :=
  exists l r, s = l ++ m ++ r /\
              forallb is_space l = true /\ forallb is_space r = true /\
              trimmed m.

(* ------------------------------------------------------------------ *)
(** ** Lemmas on the string operations *)

Lemma pystr_eqb_eq (a b : pystr) : pystr_eqb a b = true <-> a = b.
Proof.
  unfold pystr_eqb. destruct (list_eq_dec N.eq_dec a b); split; congruence.
Qed.

Lemma pystr_eqb_neq (a b : pystr) : pystr_eqb a b = false <-> a <> b.
Proof.
  unfold pystr_eqb. destruct (list_eq_dec N.eq_dec a b); split; congruence.
Qed.

Lemma pystr_eqb_refl (a : pystr) : pystr_eqb a a = true.
Proof. now apply pystr_eqb_eq. Qed.

(** *** Characters *)

Lemma blank_is_space (c : char) : N.eqb c (ch " ") = true -> is_space c = true.
Proof. intros H. apply N.eqb_eq in H. now subst. Qed.

Lemma digit_not_space (c : char) : is_digit c = true -> is_space c = false.
Proof.
  unfold is_digit, is_space. intros H.
  apply andb_true_iff in H as [H1 H2]. apply N.leb_le in H1, H2.
  repeat (apply orb_false_iff; split);
    try (apply andb_false_iff; (left; apply N.leb_gt; lia) || (right; apply N.leb_gt; lia));
    try (apply N.eqb_neq; lia).
Qed.

(** What holds of every entry of the upper-case table: the character is no
    whitespace; what it becomes is not empty and holds no whitespace, no
    digit and no character that the table would change again. *)
Lemma upper_table_sound :
  forallb (fun e =>
             negb (is_space (fst e)) && negb (is_empty (snd e)) &&
             forallb (fun x =>
                        negb (is_space x) && negb (is_digit x) &&
                        is_empty (filter (fun e' => (fst e' =? x)%N) upper_table))
                     (snd e))
          upper_table = true.
Proof. vm_compute. reflexivity. Qed.

Lemma find_none_filter {A : Type} (f : A -> bool) (l : list A) :
  is_empty (filter f l) = true -> find f l = None.
Proof.
  induction l as [|a l IH]; simpl; auto.
  destruct (f a); simpl; auto. discriminate.
Qed.

Lemma upper_char_cases (c : char) :
  upper_char c = [c] \/
  (is_space c = false /\ upper_char c <> [] /\
   forall x, In x (upper_char c) ->
             is_space x = false /\ is_digit x = false /\ upper_char x = [x]).
Proof.
  unfold upper_char at 1 2 3.
  destruct (find (fun e => (fst e =? c)%N) upper_table) as [[k v]|] eqn:E;
    [|now left].
  right. apply find_some in E as [Hin Hc]. cbn [fst snd] in *.
  apply N.eqb_eq in Hc. subst k.
  pose proof upper_table_sound as Hs. rewrite forallb_forall in Hs.
  specialize (Hs (c, v) Hin). cbn [fst snd] in Hs.
  apply andb_true_iff in Hs as [Hs Himg].
  apply andb_true_iff in Hs as [Hk Hne].
  split; [now apply negb_true_iff|]. split.
  - destruct v; [discriminate | congruence].
  - intros x Hx. rewrite forallb_forall in Himg. specialize (Himg x Hx).
    apply andb_true_iff in Himg as [Himg Hf].
    apply andb_true_iff in Himg as [H1 H2].
    repeat split; try now apply negb_true_iff.
    unfold upper_char. now rewrite (find_none_filter _ _ Hf).
Qed.

Lemma upper_char_space (c : char) : is_space c = true -> upper_char c = [c].
Proof.
  intros H. destruct (upper_char_cases c) as [E | (Hc & _)]; auto. congruence.
Qed.

Lemma upper_char_solid (c : char) :
  is_space c = false ->
  upper_char c <> [] /\ forallb (fun x => negb (is_space x)) (upper_char c) = true.
Proof.
  intros H. destruct (upper_char_cases c) as [E | (_ & Hne & Himg)].
  - rewrite E. split; [discriminate|]. simpl. now rewrite H.
  - split; auto. apply forallb_forall. intros x Hx.
    apply negb_true_iff. now apply Himg.
Qed.

Lemma upper_char_image_fixed (c x : char) :
  In x (upper_char c) -> upper_char x = [x].
Proof.
  intros Hx. destruct (upper_char_cases c) as [E | (_ & _ & Himg)].
  - rewrite E in Hx. destruct Hx as [<- | []]. exact E.
  - now apply Himg.
Qed.

Lemma upper_char_digit (c x : char) :
  In x (upper_char c) -> is_digit x = true -> upper_char c = [c].
Proof.
  intros Hx Hd. destruct (upper_char_cases c) as [E | (_ & _ & Himg)]; auto.
  destruct (Himg x Hx) as (_ & H & _). congruence.
Qed.

Lemma flat_map_fixed {A : Type} (f : A -> list A) (l : list A) :
  (forall x, In x l -> f x = [x]) -> flat_map f l = l.
Proof.
  induction l as [|a l IH]; intros H; simpl; auto.
  rewrite (H a) by now left. simpl. f_equal. apply IH. intros x Hx. apply H. now right.
Qed.

Lemma upper_app (a b : pystr) : upper (a ++ b) = upper a ++ upper b.
Proof. apply flat_map_app. Qed.

Lemma upper_all_space (s : pystr) : forallb is_space s = true -> upper s = s.
Proof.
  intros H. apply flat_map_fixed. intros x Hx. apply upper_char_space.
  rewrite forallb_forall in H. auto.
Qed.

Section Strip.
Variable p : char -> bool.

Lemma lstrip_head_kept s : head_kept p (lstrip_by p s) = true.
Proof.
  induction s as [|c t IH]; simpl; auto.
  destruct (p c) eqn:E; auto. simpl. now rewrite E.
Qed.

Lemma lstrip_fixed s : head_kept p s = true -> lstrip_by p s = s.
Proof.
  destruct s as [|c t]; simpl; auto.
  destruct (p c); simpl; congruence.
Qed.

Lemma lstrip_all s : forallb p s = true -> lstrip_by p s = [].
Proof.
  induction s as [|c t IH]; simpl; auto.
  destruct (p c); simpl; auto. discriminate.
Qed.


Lemma lstrip_app a b :
  lstrip_by p (a ++ b) =
  if forallb p a then lstrip_by p b else lstrip_by p a ++ b.
Proof.
  induction a as [|c t IH]; simpl; auto.
  destruct (p c); simpl; auto.
Qed.

Lemma forallb_rev (s : pystr) : forallb p (rev s) = forallb p s.
Proof.
  induction s as [|c t IH]; simpl; auto.
  rewrite forallb_app, IH. simpl. rewrite andb_true_r. apply andb_comm.
Qed.

(** [rstrip_by] read from the left. *)
Lemma rstrip_cons c t :
  rstrip_by p (c :: t) =
  if forallb p (c :: t) then [] else c :: rstrip_by p t.
Proof.
  unfold rstrip_by. simpl rev. rewrite lstrip_app, forallb_rev. simpl forallb.
  destruct (forallb p t) eqn:Et.
  - rewrite andb_true_r. simpl. destruct (p c); simpl; auto.
    rewrite lstrip_all; auto. now rewrite forallb_rev.
  - rewrite andb_false_r. rewrite rev_app_distr. reflexivity.
Qed.

Lemma rstrip_nil : rstrip_by p [] = [].
Proof. reflexivity. Qed.

Lemma rstrip_all s : forallb p s = true -> rstrip_by p s = [].
Proof.
  intros H. unfold rstrip_by. rewrite lstrip_all; auto. now rewrite forallb_rev.
Qed.


Lemma rstrip_head_kept s : head_kept p s = true -> head_kept p (rstrip_by p s) = true.
Proof.
  destruct s as [|c t]; auto. rewrite rstrip_cons.
  destruct (forallb p (c :: t)); auto.
Qed.

Lemma rstrip_idem s : rstrip_by p (rstrip_by p s) = rstrip_by p s.
Proof.
  unfold rstrip_by. rewrite rev_involutive.
  now rewrite (lstrip_fixed (lstrip_by p (rev s))) by apply lstrip_head_kept.
Qed.

Lemma lstrip_split s : exists l, s = l ++ lstrip_by p s /\ forallb p l = true.
Proof.
  induction s as [|c t (l & Hl & Hp)]; simpl.
  - now exists [].
  - destruct (p c) eqn:E.
    + exists (c :: l). simpl. rewrite E, Hp. split; auto. now f_equal.
    + now exists [].
Qed.

Lemma rstrip_split s : exists r, s = rstrip_by p s ++ r /\ forallb p r = true.
Proof.
  destruct (lstrip_split (rev s)) as (l & Hl & Hp).
  exists (rev l). split; [|now rewrite forallb_rev].
  unfold rstrip_by. rewrite <- rev_app_distr, <- Hl. now rewrite rev_involutive.
Qed.

Lemma forallb_lstrip (q : char -> bool) s :
  forallb q s = true -> forallb q (lstrip_by p s) = true.
Proof.
  induction s as [|c t IH]; simpl; auto.
  intros H. apply andb_true_iff in H as [Hc Ht].
  destruct (p c); simpl; auto. now rewrite Hc, Ht.
Qed.
End Strip.

Lemma filter_all_kept {A : Type} (q : A -> bool) (l : list A) :
  forallb q l = true -> filter q l = l.
Proof.
  induction l as [|a l IH]; simpl; auto.
  intros H. apply andb_true_iff in H as [Ha Hl]. now rewrite Ha, IH.
Qed.

Lemma strip_idem s : strip (strip s) = strip s.
Proof.
  unfold strip.
  rewrite (lstrip_fixed is_space (rstrip_by is_space (lstrip_by is_space s))).
  - apply rstrip_idem.
  - apply rstrip_head_kept, lstrip_head_kept.
Qed.

Lemma strip_trim_of s : trim_of s (strip s).
Proof.
  destruct (lstrip_split is_space s) as (l & Hl & Hpl).
  destruct (rstrip_split is_space (lstrip_by is_space s)) as (r & Hr & Hpr).
  exists l, r. fold (strip s) in Hr. repeat split; auto.
  - now rewrite <- Hr.
  - apply rstrip_head_kept, lstrip_head_kept.
  - unfold strip, rstrip_by. rewrite rev_involutive. apply lstrip_head_kept.
Qed.

(** The trimmed text is the only one that [trim_of] allows. *)
Lemma trim_of_strip s m : trim_of s m -> strip s = m.
Proof.
  intros (l & r & -> & Hl & Hr & Hh & Ht). unfold strip.
  rewrite lstrip_app, Hl. destruct m as [|c t].
  - simpl. now rewrite (lstrip_all is_space r Hr).
  - rewrite (lstrip_fixed is_space ((c :: t) ++ r)) by exact Hh.
    unfold rstrip_by. rewrite rev_app_distr, lstrip_app, forallb_rev, Hr.
    rewrite (lstrip_fixed is_space (rev (c :: t)) Ht). apply rev_involutive.
Qed.

Lemma head_kept_solid_app (v w : pystr) :
  v <> [] -> forallb (fun x => negb (is_space x)) v = true ->
  head_kept is_space (v ++ w) = true.
Proof.
  destruct v as [|h v]; [congruence|]. simpl. intros _ H.
  now apply andb_true_iff in H as [H _].
Qed.

Lemma head_kept_upper (m : pystr) :
  head_kept is_space m = true -> head_kept is_space (upper m) = true.
Proof.
  destruct m as [|c t]; auto. simpl. intros H. apply negb_true_iff in H.
  destruct (upper_char_solid c H) as [Hne Hs]. now apply head_kept_solid_app.
Qed.

Lemma trimmed_upper (m : pystr) : trimmed m -> trimmed (upper m).
Proof.
  intros [Hh Ht]. split; [now apply head_kept_upper|].
  destruct (rev m) as [|c t] eqn:E.
  - apply (f_equal (@rev char)) in E. rewrite rev_involutive in E. now subst.
  - apply (f_equal (@rev char)) in E. rewrite rev_involutive in E. subst m.
    simpl in Ht. apply negb_true_iff in Ht.
    destruct (upper_char_solid c Ht) as [Hne Hs].
    simpl rev. rewrite upper_app. simpl. rewrite app_nil_r, rev_app_distr.
    apply head_kept_solid_app.
    + intros H. apply (f_equal (@rev char)) in H. rewrite rev_involutive in H.
      now apply Hne.
    + now rewrite forallb_rev.
Qed.

Lemma strip_upper s : strip (upper s) = upper (strip s).
Proof.
  destruct (strip_trim_of s) as (l & r & Hs & Hl & Hr & Ht).
  apply trim_of_strip. exists l, r. repeat split; auto; try now apply trimmed_upper.
  rewrite Hs at 1. rewrite !upper_app.
  now rewrite (upper_all_space l Hl), (upper_all_space r Hr).
Qed.

Lemma upper_idem s : upper (upper s) = upper s.
Proof.
  induction s as [|c t IH]; auto.
  change (upper (c :: t)) with (upper_char c ++ upper t).
  rewrite upper_app, IH. f_equal.
  apply flat_map_fixed. intros x Hx. now apply (upper_char_image_fixed c).
Qed.

Lemma remove_spaces_app (a b : pystr) :
  remove_spaces (a ++ b) = remove_spaces a ++ remove_spaces b.
Proof. apply filter_app. Qed.

Lemma remove_spaces_upper_char (c : char) :
  remove_spaces (upper_char c) = upper (remove_spaces [c]).
Proof.
  unfold remove_spaces at 2. cbn [filter].
  destruct (N.eqb c (ch " ")) eqn:E; cbn [negb].
  - rewrite (upper_char_space c (blank_is_space c E)).
    unfold remove_spaces. cbn [filter]. now rewrite E.
  - cbn [upper flat_map]. rewrite app_nil_r.
    apply filter_all_kept. apply forallb_forall. intros x Hx.
    destruct (N.eqb x (ch " ")) eqn:Ex; auto.
    pose proof (blank_is_space x Ex) as Hsx.
    destruct (is_space c) eqn:Es.
    + rewrite (upper_char_space c Es) in Hx. destruct Hx as [<- | []]. congruence.
    + destruct (upper_char_solid c Es) as [_ Hs].
      rewrite forallb_forall in Hs. specialize (Hs x Hx).
      rewrite Hsx in Hs. discriminate.
Qed.

Lemma remove_spaces_upper s : remove_spaces (upper s) = upper (remove_spaces s).
Proof.
  induction s as [|c t IH]; auto.
  change (upper (c :: t)) with (upper_char c ++ upper t).
  change (c :: t) with ([c] ++ t).
  now rewrite !remove_spaces_app, upper_app, IH, remove_spaces_upper_char.
Qed.

Lemma remove_spaces_idem s : remove_spaces (remove_spaces s) = remove_spaces s.
Proof.
  unfold remove_spaces. induction s as [|c t IH]; simpl; auto.
  destruct (N.eqb c (ch " ")) eqn:E; simpl; auto. now rewrite E, IH.
Qed.

Lemma forallb_space_remove_spaces s :
  forallb is_space (remove_spaces s) = forallb is_space s.
Proof.
  unfold remove_spaces. induction s as [|c t IH]; simpl; auto.
  destruct (N.eqb c (ch " ")) eqn:E; simpl.
  - now rewrite (blank_is_space c E).
  - now rewrite IH.
Qed.

Lemma lstrip_remove_spaces s :
  lstrip_by is_space (remove_spaces s) = remove_spaces (lstrip_by is_space s).
Proof.
  unfold remove_spaces. induction s as [|c t IH]; simpl; auto.
  destruct (N.eqb c (ch " ")) eqn:E; simpl.
  - now rewrite (blank_is_space c E).
  - destruct (is_space c) eqn:Es; simpl; auto. now rewrite E.
Qed.

Lemma rstrip_remove_spaces s :
  rstrip_by is_space (remove_spaces s) = remove_spaces (rstrip_by is_space s).
Proof.
  induction s as [|c t IH]; auto.
  rewrite rstrip_cons. change (remove_spaces (c :: t)) with
    (if negb (N.eqb c (ch " ")) then c :: remove_spaces t else remove_spaces t).
  destruct (N.eqb c (ch " ")) eqn:E; simpl negb; cbv iota.
  - rewrite IH. simpl forallb. rewrite (blank_is_space c E). simpl.
    destruct (forallb is_space t) eqn:Et.
    + now rewrite rstrip_all.
    + unfold remove_spaces at 2. simpl. now rewrite E.
  - rewrite rstrip_cons. simpl forallb. rewrite forallb_space_remove_spaces, IH.
    destruct (is_space c && forallb is_space t); auto.
    unfold remove_spaces at 2. simpl. now rewrite E.
Qed.

Lemma strip_remove_spaces s : strip (remove_spaces s) = remove_spaces (strip s).
Proof.
  unfold strip. now rewrite lstrip_remove_spaces, rstrip_remove_spaces.
Qed.

(** A pattern of solid characters starts a text and its right-trimmed form
    alike. *)
Lemma startswith_rstrip (q t : pystr) :
  forallb (fun c => negb (is_space c)) q = true ->
  startswith q (rstrip_by is_space t) = startswith q t.
Proof.
  revert q. induction t as [|c t IH]; intros q Hq; auto.
  destruct q as [|a q']; auto.
  simpl in Hq. apply andb_true_iff in Hq as [Ha Hq'].
  rewrite rstrip_cons. destruct (forallb is_space (c :: t)) eqn:E.
  - simpl in E. apply andb_true_iff in E as [Hc _]. simpl.
    destruct (N.eqb a c) eqn:Eac; auto.
    apply N.eqb_eq in Eac. subst. now rewrite Hc in Ha.
  - simpl. now rewrite IH.
Qed.

(** *** A marker made of characters that are not whitespace *)

Section Marker.
Variable m : pystr.
Hypothesis m_solid : forallb (fun c => negb (is_space c)) m = true.
Hypothesis m_nonempty : m <> [].

Lemma startswith_space c t : is_space c = true -> startswith m (c :: t) = false.
Proof.
  intros Hc. destruct m as [|a m']; [congruence|]. simpl in *.
  apply andb_true_iff in m_solid as [Ha _].
  destruct (N.eqb a c) eqn:E; auto.
  apply N.eqb_eq in E. subst. now rewrite Hc in Ha.
Qed.

Lemma startswith_nil : startswith m [] = false.
Proof. destruct m; [congruence | reflexivity]. Qed.

Lemma contains_all_space s : forallb is_space s = true -> contains m s = false.
Proof.
  induction s as [|c t IH]; simpl contains.
  - intros _. now rewrite startswith_nil.
  - simpl. intros H. apply andb_true_iff in H as [Hc Ht].
    now rewrite (startswith_space c t Hc), IH.
Qed.

Lemma contains_lstrip s : contains m (lstrip_by is_space s) = contains m s.
Proof.
  induction s as [|c t IH]; auto.
  simpl lstrip_by. destruct (is_space c) eqn:Hc; auto.
  rewrite IH. simpl. now rewrite (startswith_space c t Hc).
Qed.



Lemma contains_rstrip s : contains m (rstrip_by is_space s) = contains m s.
Proof.
  induction s as [|c t IH]; auto.
  assert (Hs := startswith_rstrip m (c :: t) m_solid).
  rewrite rstrip_cons in *. destruct (forallb is_space (c :: t)) eqn:E.
  - rewrite (contains_all_space (c :: t) E).
    exact (contains_all_space [] eq_refl).
  - simpl contains. simpl in Hs. now rewrite Hs, IH.
Qed.

Lemma contains_strip s : contains m (strip s) = contains m s.
Proof.
  unfold strip. rewrite contains_rstrip. now apply contains_lstrip.
Qed.



Lemma startswith_app (q a b : pystr) :
  startswith q a = true -> startswith q (a ++ b) = true.
Proof.
  revert a. induction q as [|x q IH]; intros a; auto.
  destruct a as [|y a]; simpl; [discriminate|].
  intros H. apply andb_true_iff in H as [H1 H2]. rewrite H1. simpl. auto.
Qed.

Lemma split_head_prefix s : exists r, s = split_head m s ++ r.
Proof.
  induction s as [|c t [r Hr]]; simpl.
  - exists []. now destruct (startswith m []).
  - destruct (startswith m (c :: t)).
    + now exists (c :: t).
    + exists r. simpl. now f_equal.
Qed.

(** The text before the first marker holds no marker. *)
Lemma contains_split_head s : contains m (split_head m s) = false.
Proof.
  induction s as [|c t IH]; simpl split_head.
  - rewrite startswith_nil. simpl. now rewrite startswith_nil.
  - destruct (startswith m (c :: t)) eqn:E.
    + simpl. now rewrite startswith_nil.
    + simpl contains. rewrite IH, orb_false_r.
      destruct (startswith m (c :: split_head m t)) eqn:E2; auto.
      destruct (split_head_prefix t) as [r Hr].
      apply (startswith_app _ _ r) in E2. simpl app in E2.
      rewrite <- Hr in E2. congruence.
Qed.
End Marker.

Lemma marker_solid : forallb (fun c => negb (is_space c)) marker = true.
Proof. reflexivity. Qed.

Lemma marker_nonempty : marker <> [].
Proof. discriminate. Qed.

(** *** Decimal digits *)

Lemma digit_char_is_digit (d : N) : (d < 10)%N -> is_digit (digit_char d) = true.
Proof.
  intros H. unfold is_digit, digit_char.
  apply andb_true_iff. split; apply N.leb_le; lia.
Qed.

Lemma digit_char_zero (d : N) : (d < 10)%N -> digit_char d = ch "0" -> d = 0%N.
Proof.
  intros H E. unfold digit_char in E. change (ch "0") with 48%N in E. lia.
Qed.

Lemma log2_div10 (n : N) : (10 <= n)%N -> (N.log2 (n / 10) < N.log2 n)%N.
Proof.
  intros H.
  assert (Hq : (0 < n / 10)%N) by (apply N.div_str_pos; lia).
  assert (H2 : (2 * (n / 10) <= n)%N).
  { pose proof (N.Div0.mul_div_le n 10). lia. }
  apply N.log2_le_mono in H2. rewrite (N.log2_double _ Hq) in H2. lia.
Qed.

Lemma digits_of_all_digits (fuel : nat) (n : N) :
  forallb is_digit (digits_of fuel n) = true.
Proof.
  revert n. induction fuel as [|f IH]; intros n; simpl; auto.
  destruct (n <? 10)%N eqn:E.
  - simpl. apply N.ltb_lt in E. now rewrite digit_char_is_digit.
  - rewrite forallb_app, IH. simpl.
    rewrite digit_char_is_digit; auto. apply N.mod_lt. lia.
Qed.

(** With fuel above the binary length, the decimal form of a positive number
    starts with a digit other than zero. *)
Lemma digits_of_head (fuel : nat) (n : N) :
  (0 < n)%N -> (N.to_nat (N.log2 n) < fuel)%nat ->
  exists c r, digits_of fuel n = c :: r /\ c <> (ch "0").
Proof.
  revert n. induction fuel as [|f IH]; intros n Hn Hf; [lia|].
  simpl. destruct (n <? 10)%N eqn:E.
  - apply N.ltb_lt in E. exists (digit_char n), []. split; auto.
    intros H0. apply digit_char_zero in H0; lia.
  - apply N.ltb_ge in E.
    destruct (IH (n / 10)%N) as (c & r & Hd & Hc).
    + apply N.div_str_pos; lia.
    + pose proof (log2_div10 n E). lia.
    + rewrite Hd. exists c, (r ++ [digit_char (n mod 10)]). split; auto.
Qed.

Lemma str_N_all_digits (n : N) : forallb is_digit (str_N n) = true.
Proof. apply digits_of_all_digits. Qed.

Lemma str_N_head (n : N) :
  (0 < n)%N -> exists c r, str_N n = c :: r /\ c <> (ch "0").
Proof. intros H. apply digits_of_head; auto. Qed.

Lemma filter_all {A : Type} (q : A -> bool) (l : list A) :
  forallb q l = true -> filter q l = l.
Proof.
  induction l as [|a l IH]; simpl; auto.
  intros H. apply andb_true_iff in H as [Ha Hl]. now rewrite Ha, IH.
Qed.

Lemma sub_non_digits_str_Z (z : Z) : sub_non_digits (str_Z z) = str_N (Z.abs_N z).
Proof.
  unfold str_Z, sub_non_digits. destruct (z <? 0)%Z; simpl;
    apply filter_all, str_N_all_digits.
Qed.

Lemma sub_non_digits_float (z : Z) :
  sub_non_digits (py_str (CFloatInt z)) = str_N (Z.abs_N z) ++ lit "0".
Proof.
  simpl. unfold sub_non_digits. rewrite filter_app.
  fold (sub_non_digits (str_Z z)). now rewrite sub_non_digits_str_Z.
Qed.

(** *** The item normalizer on a digit string *)


Lemma norm_line_cases (x : cell) :
  let d := sub_non_digits (py_str x) in
  (strip_zeros d = [] /\ norm_line x = lit "0") \/
  (exists c r, strip_zeros d = c :: r /\ c <> (ch "0") /\ norm_line x = c :: r).
Proof.
  cbv zeta. unfold norm_line.
  pose proof (lstrip_head_kept (N.eqb (ch "0")) (sub_non_digits (py_str x))) as Hk.
  fold (strip_zeros (sub_non_digits (py_str x))) in Hk.
  destruct (strip_zeros (sub_non_digits (py_str x))) as [|c r]; [left; auto|].
  right. exists c, r. repeat split; auto.
  simpl in Hk. intros ->. discriminate.
Qed.

Lemma norm_line_on_clean (c : char) (r : pystr) :
  c <> (ch "0") -> forallb is_digit (c :: r) = true ->
  norm_line (CStr (c :: r)) = c :: r.
Proof.
  intros Hc Hd. unfold norm_line. simpl py_str.
  unfold sub_non_digits. rewrite (filter_all _ _ Hd).
  unfold strip_zeros. cbn [lstrip_by].
  destruct (N.eqb (ch "0") c) eqn:E; auto.
  apply N.eqb_eq in E. congruence.
Qed.

Lemma norm_line_digits (x : cell) : forallb is_digit (norm_line x) = true.
Proof.
  unfold norm_line, strip_zeros.
  assert (H : forallb is_digit (lstrip_by (N.eqb (ch "0")) (sub_non_digits (py_str x))) = true).
  { apply forallb_lstrip. unfold sub_non_digits.
    apply forallb_forall. intros c Hc. now apply filter_In in Hc. }
  destruct (lstrip_by (N.eqb (ch "0")) (sub_non_digits (py_str x))); auto.
Qed.

(* ------------------------------------------------------------------ *)
(** ** The field normalizers *)





(** C4. The SAP location normalizer trims the string form, gives "EDMONTON"
    when the trimmed text is "2913" and the trimmed text in upper case
    otherwise. Trimming and upper-casing are those of [str.strip] and
    [str.upper] on any text, not on ASCII alone. *)
Theorem norm_loc_sap_spec :
  (forall x : cell,
     let code := strip (py_str x) in
     (code = lit "2913" /\ norm_loc_sap x = lit "EDMONTON") \/
     (code <> lit "2913" /\ norm_loc_sap x = upper code)) /\
  (forall x : cell,
     exists code,
       trim_of (py_str x) code /\
       ((code = lit "2913" /\ norm_loc_sap x = lit "EDMONTON") \/
        (code <> lit "2913" /\ norm_loc_sap x = upper code))) /\
  norm_loc_sap (CStr (lit "2913")) = lit "EDMONTON" /\
  norm_loc_sap (CStr (lit " 2913 ")) = lit "EDMONTON" /\
  norm_loc_sap (CStr (lit "yeg")) = lit "YEG" /\
  norm_loc_sap (CStr (lit "2913" ++ [160]%N)) = lit "EDMONTON" /\
  norm_loc_sap (CInt 2913) = lit "EDMONTON" /\
  norm_loc_sap (CStr (lit " montréal ")) = lit "MONTRÉAL" /\
  norm_loc_sap (CStr (lit "straße 3")) = lit "STRASSE 3".
Proof.
  assert (H : forall x : cell,
             let code := strip (py_str x) in
             (code = lit "2913" /\ norm_loc_sap x = lit "EDMONTON") \/
             (code <> lit "2913" /\ norm_loc_sap x = upper code)).
  { intros x code. unfold norm_loc_sap. fold code.
    destruct (pystr_eqb code (lit "2913")) eqn:E.
    - left. split; auto. now apply pystr_eqb_eq.
    - right. split; auto. now apply pystr_eqb_neq. }
  split; [exact H|]. split; [|repeat split; vm_compute; reflexivity].
  intros x. exists (strip (py_str x)). split; [apply strip_trim_of | apply H].
Qed.

Lemma norm_po_as_worded (x : cell) : norm_po x = spec_po (py_str x).
Proof. unfold norm_po, spec_po. apply remove_spaces_upper. Qed.

Lemma norm_po_key (x : cell) :
  norm_po x = strip (upper (remove_spaces (py_str x))).
Proof.
  rewrite norm_po_as_worded. unfold spec_po.
  now rewrite <- strip_remove_spaces, strip_upper.
Qed.




(** *** Idempotence *)

Lemma upper_digits_fixed (s : pystr) :
  forallb is_digit (upper s) = true -> upper s = s.
Proof.
  induction s as [|c t IH]; auto.
  change (upper (c :: t)) with (upper_char c ++ upper t).
  rewrite forallb_app. intros H. apply andb_true_iff in H as [Hc Ht].
  rewrite (IH Ht). rewrite forallb_forall in Hc.
  destruct (upper_char_cases c) as [E | (_ & Hne & Himg)].
  - now rewrite E.
  - destruct (upper_char c) as [|x v] eqn:E; [congruence|].
    destruct (Himg x (or_introl eq_refl)) as (_ & Hd & _).
    rewrite (Hc x (or_introl eq_refl)) in Hd. discriminate.
Qed.

Lemma norm_po_idem (x : cell) : norm_po (CStr (norm_po x)) = norm_po x.
Proof.
  rewrite (norm_po_key (CStr (norm_po x))). simpl py_str.
  rewrite (norm_po_key x).
  set (s := py_str x).
  rewrite <- (strip_remove_spaces (upper (remove_spaces s))).
  rewrite <- (strip_upper (remove_spaces (upper (remove_spaces s)))).
  rewrite strip_idem, (remove_spaces_upper (remove_spaces s)).
  now rewrite remove_spaces_idem, upper_idem.
Qed.

Lemma norm_line_idem (x : cell) : norm_line (CStr (norm_line x)) = norm_line x.
Proof.
  pose proof (norm_line_digits x) as Hd.
  destruct (norm_line_cases x) as [[_ Hn] | (c & r & _ & Hc & Hn)];
    rewrite Hn in *.
  - reflexivity.
  - now apply norm_line_on_clean.
Qed.

Lemma norm_loc_oo_idem (x : cell) : norm_loc_oo (CStr (norm_loc_oo x)) = norm_loc_oo x.
Proof.
  unfold norm_loc_oo. simpl py_str.
  now rewrite strip_upper, strip_idem, upper_idem.
Qed.

Lemma norm_loc_sap_idem (x : cell) :
  norm_loc_sap (CStr (norm_loc_sap x)) = norm_loc_sap x.
Proof.
  unfold norm_loc_sap at 2 3.
  destruct (pystr_eqb (strip (py_str x)) (lit "2913")) eqn:E; [reflexivity|].
  unfold norm_loc_sap. simpl py_str.
  rewrite strip_upper, strip_idem.
  destruct (pystr_eqb (upper (strip (py_str x))) (lit "2913")) eqn:E2.
  - apply pystr_eqb_eq in E2. apply pystr_eqb_neq in E. exfalso. apply E.
    rewrite <- E2. symmetry. apply upper_digits_fixed. now rewrite E2.
  - apply upper_idem.
Qed.

Lemma clean_model_idem (x : cell) :
  clean_model (CStr (clean_model x)) = clean_model x.
Proof.
  unfold clean_model at 2 3. destruct (isna x); [reflexivity|].
  unfold clean_model. simpl isna. simpl py_str. cbv iota.
  destruct (contains marker (py_str x)) eqn:E.
  - rewrite (contains_strip marker marker_solid marker_nonempty),
      (contains_split_head marker marker_solid marker_nonempty).
    apply strip_idem.
  - rewrite (contains_strip marker marker_solid marker_nonempty), E.
    apply strip_idem.
Qed.

(** C8. Each normalizer is a total function from cells to texts (none of
    them has a raising path), and normalizing a normalized value changes
    nothing: for the PO number, the PO item and the two location
    normalizers, and for the model normalizer, whose result is already cut
    at ">>". This holds for every text, with the whitespace of [str.strip]
    and the upper-casing of [str.upper] (where "ß" becomes "SS"). *)
Theorem normalizers_idempotent (x : cell) :
  norm_po (CStr (norm_po x)) = norm_po x /\
  norm_line (CStr (norm_line x)) = norm_line x /\
  norm_loc_sap (CStr (norm_loc_sap x)) = norm_loc_sap x /\
  norm_loc_oo (CStr (norm_loc_oo x)) = norm_loc_oo x /\
  contains marker (clean_model x) = false /\
  clean_model (CStr (clean_model x)) = clean_model x /\
  norm_po (CStr ([160]%N ++ lit "straße 7 ")) = lit "STRASSE7" /\
  norm_loc_oo (CStr (lit " montréal" ++ [8195]%N)) = lit "MONTRÉAL" /\
  norm_loc_sap (CStr (lit "EDMONTON")) = lit "EDMONTON" /\
  norm_line (CStr (lit "70")) = lit "70" /\
  clean_model (CStr (lit " a>>b>>c ")) = lit "a".
Proof.
  split; [apply norm_po_idem|]. split; [apply norm_line_idem|].
  split; [apply norm_loc_sap_idem|]. split; [apply norm_loc_oo_idem|].
  split.
  { rewrite <- (clean_model_idem x). unfold clean_model at 1.
    simpl isna. simpl py_str. cbv iota.
    destruct (contains marker (clean_model x)) eqn:E.
    + rewrite (contains_strip marker marker_solid marker_nonempty).
      apply (contains_split_head marker marker_solid marker_nonempty).
    + now rewrite (contains_strip marker marker_solid marker_nonempty). }
  split; [apply clean_model_idem|].
  repeat split; vm_compute; reflexivity.
Qed.

Lemma norm_line_float_value (z : Z) :
  norm_line (CFloatInt z) =
  if (z =? 0)%Z then lit "0" else str_N (Z.abs_N z) ++ lit "0".
Proof.
  destruct (z =? 0)%Z eqn:Ez.
  - apply Z.eqb_eq in Ez. subst z. reflexivity.
  - apply Z.eqb_neq in Ez.
    assert (Hpos : (0 < Z.abs_N z)%N) by lia.
    destruct (str_N_head (Z.abs_N z) Hpos) as (c & r & Hs & Hc).
    unfold norm_line. rewrite sub_non_digits_float, Hs.
    unfold strip_zeros. cbn [app lstrip_by].
    destruct (N.eqb (ch "0") c) eqn:E; auto.
    apply N.eqb_eq in E. congruence.
Qed.

Lemma norm_line_int_value (z : Z) : norm_line (CInt z) = str_N (Z.abs_N z).
Proof.
  unfold norm_line. simpl py_str. rewrite sub_non_digits_str_Z.
  destruct (N.eq_dec (Z.abs_N z) 0) as [E | E].
  - rewrite E. reflexivity.
  - destruct (str_N_head (Z.abs_N z)) as (c & r & Hs & Hc); [lia|].
    rewrite Hs. unfold strip_zeros. cbn [lstrip_by].
    destruct (N.eqb (ch "0") c) eqn:E0; auto.
    apply N.eqb_eq in E0. congruence.
Qed.

(** C10, as amended. A float cell holding the integer [z] has the string
    form [str(z) ++ ".0"]; the item normalizer keeps all its digits, the one
    after the point included, and then drops the leading zeros. For [z <> 0]
    the result is the digits of [z] followed by "0" (7.0 gives "70", not
    "7") and differs from that of the integer cell [z]; for 0.0 the digits
    "00" leave "0", which is also the result for the integer 0. *)
Theorem norm_line_float (z : Z) :
  (Z.abs z < 10 ^ 16)%Z ->
  py_str (CFloatInt z) = str_Z z ++ lit ".0" /\
  sub_non_digits (py_str (CFloatInt z)) = str_N (Z.abs_N z) ++ lit "0" /\
  norm_line (CFloatInt z) =
    (if (z =? 0)%Z then lit "0" else str_N (Z.abs_N z) ++ lit "0") /\
  norm_line (CInt z) = str_N (Z.abs_N z) /\
  (norm_line (CFloatInt z) = norm_line (CInt z) <-> z = 0%Z) /\
  norm_line (CFloatInt 7) = lit "70" /\
  norm_line (CStr (lit "7")) = lit "7" /\
  py_str (CFloatInt 7) = lit "7.0".
Proof.
  intros _. split; [reflexivity|]. split; [apply sub_non_digits_float|].
  split; [apply norm_line_float_value|]. split; [apply norm_line_int_value|].
  split; [|repeat split; reflexivity].
  rewrite norm_line_float_value, norm_line_int_value.
  destruct (z =? 0)%Z eqn:Ez.
  - apply Z.eqb_eq in Ez. subst z. split; auto.
  - apply Z.eqb_neq in Ez. split; [|contradiction].
    intros H. apply (f_equal (@List.length char)) in H.
    rewrite length_app in H. simpl in H. lia.
Qed.

Lemma norm_line_float_witness :
  (Z.abs 7 < 10 ^ 16)%Z /\ norm_line (CFloatInt 7) <> norm_line (CInt 7).
Proof.
  split; [reflexivity|]. intros H.
  apply (proj1 (proj2 (proj2 (proj2 (proj2 (norm_line_float 7 eq_refl)))))) in H.
  discriminate.
Defined.

(** C10, the statement as written fails at 0.0: the digits kept are "00",
    the result is "0", and it is the item of the integer 0 as well. *)
Lemma norm_line_float_zero :
  py_str (CFloatInt 0) = lit "0.0" /\
  sub_non_digits (py_str (CFloatInt 0)) = lit "00" /\
  norm_line (CFloatInt 0) = lit "0" /\
  norm_line (CFloatInt 0) <> sub_non_digits (py_str (CFloatInt 0)) /\
  norm_line (CFloatInt 0) = norm_line (CInt 0) /\
  norm_line (CFloatInt 0) = norm_line (CStr (lit "0")).
Proof.
  repeat split; try reflexivity. discriminate.
Qed.

(* ------------------------------------------------------------------ *)
(** ** The comparator *)

Lemma row_issues_fields (s o : CanonicalRow) :
  row_issues s o = map (fun f => describe f s o) (differing_fields s o).
Proof.
  unfold row_issues, differing_fields, append_if_differ, field_order.
  simpl filter. simpl field_value.
  destruct (pystr_eqb (po s) (po o)), (pystr_eqb (po_item s) (po_item o)),
    (pystr_eqb (model s) (model o)), (pystr_eqb (location s) (location o));
    reflexivity.
Qed.

Lemma row_issues_empty (s o : CanonicalRow) :
  row_issues s o = [] <-> (forall f, field_value f s = field_value f o).
Proof.
  rewrite row_issues_fields. unfold differing_fields, field_order. simpl filter.
  simpl field_value. split.
  - intros H f.
    destruct (pystr_eqb (po s) (po o)) eqn:E1; [|discriminate].
    destruct (pystr_eqb (po_item s) (po_item o)) eqn:E2; [|discriminate].
    destruct (pystr_eqb (model s) (model o)) eqn:E3; [|discriminate].
    destruct (pystr_eqb (location s) (location o)) eqn:E4; [|discriminate].
    destruct f; simpl; now apply pystr_eqb_eq.
  - intros H.
    rewrite (H FPo : po s = po o), (H FPoItem : po_item s = po_item o),
      (H FModel : model s = model o), (H FLocation : location s = location o).
    now rewrite !pystr_eqb_refl.
Qed.

Lemma differing_fields_spec (s o : CanonicalRow) (f : field) :
  In f (differing_fields s o) <-> field_value f s <> field_value f o.
Proof.
  unfold differing_fields. rewrite filter_In, negb_true_iff, pystr_eqb_neq.
  split; [tauto|]. intros H. split; auto.
  unfold field_order. destruct f; simpl; auto.
Qed.

Lemma describe_names (f : field) (s o : CanonicalRow) :
  starts_with_label f (describe f s o) = true /\
  names_both (describe f s o) (field_value f s) (field_value f o).
Proof.
  split; [destruct f; reflexivity|].
  unfold names_both. destruct f; simpl.
  - exists (lit "PO #: SAP="), (lit " vs OO="), []. unfold issue_po.
    now rewrite app_nil_r.
  - exists (lit "PO Item: SAP="), (lit " vs OO="), []. unfold issue_po_item.
    now rewrite app_nil_r.
  - exists (lit "Model: SAP='"), (lit "' vs OO='"), (lit "'"). reflexivity.
  - exists (lit "Location: SAP='"), (lit "' vs OO='"), (lit "'"). reflexivity.
Qed.

Lemma is_empty_nil {A : Type} (l : list A) : is_empty l = true <-> l = [].
Proof. destruct l; simpl; split; congruence. Qed.

Lemma nth_error_skipn_cons {A : Type} (l : list A) (i : nat) :
  i < List.length l ->
  exists a, nth_error l i = Some a /\ skipn i l = a :: skipn (S i) l.
Proof.
  revert i. induction l as [|x l IH]; intros i H; simpl in H; [lia|].
  destruct i as [|i].
  - exists x. auto.
  - destruct (IH i) as (a & Ha & Hs); [lia|]. exists a. auto.
Qed.

(** The loop over [count] indices from [start] adds to the state what the
    paired rows at these indices give. *)
Lemma for_range_loop (sap_rows oo_rows : list CanonicalRow) (count start : nat)
  (st : LoopState) :
  start + count <= List.length sap_rows ->
  start + count <= List.length oo_rows ->
  let pairs := combine (firstn count (skipn start sap_rows))
                       (firstn count (skipn start oo_rows)) in
  for_range (loop_body sap_rows oo_rows) start count st =
  Ok {| equivalent_rows := equivalent_rows st + count_equivalent pairs;
        discrepancy_rows := discrepancy_rows st ++ discrepancies_from start pairs;
        combined_rows := combined_rows st ++ combined_from start pairs |}.
Proof.
  revert start st. induction count as [|k IH]; intros start st Hs Ho; cbv zeta.
  - simpl. unfold count_equivalent. simpl. rewrite !app_nil_r, Nat.add_0_r.
    now destruct st.
  - destruct (nth_error_skipn_cons sap_rows start) as (s & Hns & Hss); [lia|].
    destruct (nth_error_skipn_cons oo_rows start) as (o & Hno & Hso); [lia|].
    rewrite Hss, Hso. cbn [firstn combine for_range].
    unfold loop_body at 1, loc. rewrite Hns, Hno. cbn [bind].
    cbn [combined_from discrepancies_from]. unfold count_equivalent.
    cbn [filter].
    assert (Ep : equivalent_pair (s, o) = is_empty (row_issues s o)) by reflexivity.
    rewrite !Ep. unfold combined_of, discrepancy_of.
    destruct (is_empty (row_issues s o)) eqn:E; cbn [negb bind];
      rewrite (IH (S start)) by lia; cbv zeta;
      cbn [equivalent_rows discrepancy_rows combined_rows];
      unfold count_equivalent;
      rewrite <- ?app_assoc; cbn [app List.length]; do 2 f_equal; lia.
Qed.

Lemma combine_firstn_min {A B : Type} (l : list A) (l' : list B) :
  combine (firstn (Nat.min (List.length l) (List.length l')) l)
          (firstn (Nat.min (List.length l) (List.length l')) l') = combine l l'.
Proof.
  revert l'. induction l as [|a l IH]; intros [|b l']; simpl; auto.
  now rewrite IH.
Qed.

(** What the comparator returns, in one piece: it never raises. *)
Lemma compare_row_by_row_eq (sap_four oo_four : list CanonicalRow) :
  compare_row_by_row sap_four oo_four =
  Ok {| rows_checked := Nat.min (List.length sap_four) (List.length oo_four);
        rows_equivalent := count_equivalent (combine sap_four oo_four);
        discrepancy_df := discrepancies_from 0 (combine sap_four oo_four);
        combined_df := combined_from 0 (combine sap_four oo_four);
        sap_len := List.length sap_four;
        oo_len := List.length oo_four |}.
Proof.
  unfold compare_row_by_row. cbv zeta.
  set (n := Nat.min (List.length sap_four) (List.length oo_four)).
  rewrite for_range_loop.
  - cbn [bind skipn equivalent_rows discrepancy_rows combined_rows app Nat.add].
    rewrite !firstn_firstn, Nat.min_id. unfold n.
    now rewrite combine_firstn_min.
  - rewrite length_firstn. unfold n. lia.
  - rewrite length_firstn. unfold n. lia.
Qed.

Lemma nth_error_combine {A B : Type} (l : list A) (l' : list B) (i : nat) a b :
  nth_error l i = Some a -> nth_error l' i = Some b ->
  nth_error (combine l l') i = Some (a, b).
Proof.
  revert l l'. induction i as [|i IH]; intros [|x l] [|y l']; simpl;
    try discriminate; try congruence.
  apply IH.
Qed.

Lemma nth_error_combine_inv {A B : Type} (l : list A) (l' : list B) (i : nat) a b :
  nth_error (combine l l') i = Some (a, b) ->
  nth_error l i = Some a /\ nth_error l' i = Some b.
Proof.
  revert l l'. induction i as [|i IH]; intros [|x l] [|y l']; simpl;
    try discriminate.
  - intros H. inversion H. auto.
  - apply IH.
Qed.

Lemma combined_from_nth (pairs : list (CanonicalRow * CanonicalRow)) (start k : nat) s o :
  nth_error pairs k = Some (s, o) ->
  nth_error (combined_from start pairs) k = Some (combined_of (start + k) s o).
Proof.
  revert start k. induction pairs as [|[s' o'] rest IH]; intros start [|k]; simpl;
    try discriminate.
  - intros H. inversion H. now rewrite Nat.add_0_r.
  - intros H. rewrite (IH (S start) k H). do 2 f_equal. lia.
Qed.

Lemma combined_from_length pairs start :
  List.length (combined_from start pairs) = List.length pairs.
Proof.
  revert start. induction pairs as [|[s o] rest IH]; intros start; simpl; auto.
Qed.

Lemma discrepancies_from_In pairs start (d : DiscrepancyRecord) :
  In d (discrepancies_from start pairs) <->
  exists k s o, nth_error pairs k = Some (s, o) /\ row_issues s o <> [] /\
                d = discrepancy_of (start + k) s o.
Proof.
  revert start. induction pairs as [|[s o] rest IH]; intros start.
  - simpl. split; [tauto|]. intros (k & s & o & H & _). now destruct k.
  - cbn [discrepancies_from]. unfold equivalent_pair. cbn [fst snd].
    destruct (is_empty (row_issues s o)) eqn:E.
    + rewrite IH. split.
      * intros (k & s' & o' & Hn & Hi & Hd). exists (S k), s', o'.
        repeat split; auto. rewrite Hd. f_equal. lia.
      * intros (k & s' & o' & Hn & Hi & Hd). destruct k as [|k].
        -- simpl in Hn. inversion Hn; subst. apply is_empty_nil in E. tauto.
        -- exists k, s', o'. repeat split; auto. rewrite Hd. f_equal. lia.
    + simpl In. rewrite IH. split.
      * intros [Hd | (k & s' & o' & Hn & Hi & Hd)].
        -- exists 0, s, o. repeat split; auto.
           ++ intros H. apply is_empty_nil in H. congruence.
           ++ rewrite <- Hd. f_equal. lia.
        -- exists (S k), s', o'. repeat split; auto. rewrite Hd. f_equal. lia.
      * intros (k & s' & o' & Hn & Hi & Hd). destruct k as [|k].
        -- simpl in Hn. inversion Hn; subst. left. f_equal. lia.
        -- right. exists k, s', o'. repeat split; auto. rewrite Hd. f_equal. lia.
Qed.

Lemma discrepancies_count pairs start :
  List.length (discrepancies_from start pairs) + count_equivalent pairs =
  List.length pairs.
Proof.
  revert start. unfold count_equivalent.
  induction pairs as [|[s o] rest IH]; intros start; auto.
  cbn [discrepancies_from filter]. specialize (IH (S start)).
  destruct (equivalent_pair (s, o)); simpl; lia.
Qed.

(** C1. For canonical tables with rows [s] and [o] at index [i], the
    comparator returns; the mismatch descriptions of the pair are those of
    the fields po, po_item, model, location, in this order, on which the two
    texts differ, one each, naming the field and both values; the row is
    marked equivalent exactly when there is no description, and listed in the
    discrepancy view exactly when there is one. *)
Theorem compare_rows_fieldwise
  (sap_four oo_four : list CanonicalRow) (i : nat) (s o : CanonicalRow) :
  nth_error sap_four i = Some s ->
  nth_error oo_four i = Some o ->
  exists cmp,
    compare_row_by_row sap_four oo_four = Ok cmp /\
    i < rows_checked cmp /\
    field_order = [FPo; FPoItem; FModel; FLocation] /\
    row_issues s o =
      map (fun f => describe f s o)
          (filter (fun f => negb (pystr_eqb (field_value f s) (field_value f o)))
                  field_order) /\
    (forall f, In (describe f s o) (row_issues s o) <->
               field_value f s <> field_value f o) /\
    (forall f, starts_with_label f (describe f s o) = true /\
               names_both (describe f s o) (field_value f s) (field_value f o)) /\
    nth_error (combined_df cmp) i = Some (combined_of i s o) /\
    (c_equivalent (combined_of i s o) = check_mark <-> row_issues s o = []) /\
    (row_issues s o = [] <-> forall f, field_value f s = field_value f o) /\
    (In (discrepancy_of i s o) (discrepancy_df cmp) <-> row_issues s o <> []).
Proof.
  intros Hs Ho. eexists. split; [apply compare_row_by_row_eq|].
  cbn [rows_checked combined_df discrepancy_df].
  pose proof (nth_error_combine _ _ _ _ _ Hs Ho) as Hp.
  split. { apply Nat.min_glb_lt; apply nth_error_Some; congruence. }
  split. { reflexivity. }
  split. { apply row_issues_fields. }
  split.
  { intros f. rewrite row_issues_fields. split.
    - intros H. apply in_map_iff in H as (g & Hg & Hin).
      apply differing_fields_spec in Hin.
      assert (g = f); [|now subst].
      destruct (describe_names g s o) as [Lg _]. rewrite Hg in Lg.
      destruct f, g; auto; unfold starts_with_label in Lg;
        destruct s, o; simpl in Lg; discriminate.
    - intros H. apply in_map with (f := fun f => describe f s o).
      now apply differing_fields_spec. }
  split. { intros f. apply describe_names. }
  split. { apply (combined_from_nth _ 0 _ _ _ Hp). }
  split.
  { unfold combined_of. cbn [c_equivalent].
    destruct (row_issues s o); simpl; split; auto; discriminate. }
  split. { apply row_issues_empty. }
  split.
  - intros H. apply discrepancies_from_In in H as (k & s' & o' & Hn & Hi & Hd).
    assert (k = i) by (apply (f_equal d_excel_row) in Hd; simpl in Hd; lia).
    subst k. rewrite Hp in Hn. now inversion Hn; subst.
  - intros H. apply discrepancies_from_In. exists i, s, o. auto.
Qed.

Lemma compare_rows_fieldwise_witness :
  exists cmp,
    compare_row_by_row sap_table oo_table = Ok cmp /\
    In (discrepancy_of 1 (row4 "PO2" "10" "Y" "YEG") (row4 "PO2" "10" "W" "YYC"))
       (discrepancy_df cmp).
Proof.
  destruct (compare_rows_fieldwise sap_table oo_table 1
              (row4 "PO2" "10" "Y" "YEG") (row4 "PO2" "10" "W" "YYC")
              eq_refl eq_refl)
    as (cmp & Hc & _ & _ & _ & _ & _ & _ & _ & _ & Hd).
  exists cmp. split; [exact Hc|]. apply Hd. discriminate.
Defined.

(* ------------------------------------------------------------------ *)
(** ** Counts, the length notice and the discrepancy file *)

Lemma discrepancy_labels_bounded pairs start :
  Forall (fun d => start + 2 <= d_excel_row d < start + List.length pairs + 2)
         (discrepancies_from start pairs).
Proof.
  apply Forall_forall. intros d H.
  apply discrepancies_from_In in H as (k & s & o & Hn & _ & ->).
  assert (k < List.length pairs) by (apply nth_error_Some; congruence).
  simpl. lia.
Qed.

(** C6. The comparator checks as many rows as the shorter table has; what
    it returns for the two tables is what it returns for their first
    [rows_checked] rows, so later rows of the longer table are not compared
    and no label of the discrepancy view points past them; the number shown
    as rows with discrepancies is rows checked minus rows equivalent, which
    is the length of the discrepancy view; the length notice is shown
    exactly when the two tables differ in length. *)
Theorem compare_counts (linesep : pystr) (sap_four oo_four : list CanonicalRow) :
  let n := Nat.min (List.length sap_four) (List.length oo_four) in
  exists cmp,
    compare_row_by_row sap_four oo_four = Ok cmp /\
    rows_checked cmp = n /\
    List.length (combined_df cmp) = n /\
    compare_row_by_row (firstn n sap_four) (firstn n oo_four) =
      Ok {| rows_checked := n;
            rows_equivalent := rows_equivalent cmp;
            discrepancy_df := discrepancy_df cmp;
            combined_df := combined_df cmp;
            sap_len := n;
            oo_len := n |} /\
    Forall (fun d => 2 <= d_excel_row d < n + 2) (discrepancy_df cmp) /\
    metric_rows_checked (render linesep cmp) = n /\
    metric_rows_with_discrepancies (render linesep cmp) =
      (Z.of_nat (rows_checked cmp) - Z.of_nat (rows_equivalent cmp))%Z /\
    metric_rows_with_discrepancies (render linesep cmp) =
      Z.of_nat (List.length (discrepancy_df cmp)) /\
    (length_notice (render linesep cmp) <> None <->
     List.length sap_four <> List.length oo_four).
Proof.
  intros n. eexists. split; [apply compare_row_by_row_eq|].
  cbn [rows_checked rows_equivalent combined_df discrepancy_df sap_len oo_len
       render metric_rows_checked metric_rows_with_discrepancies length_notice].
  assert (Hlen : List.length (combine sap_four oo_four) = n)
    by apply length_combine.
  split. { reflexivity. }
  split. { now rewrite combined_from_length. }
  split.
  { rewrite compare_row_by_row_eq. unfold n.
    rewrite combine_firstn_min, !length_firstn.
    f_equal. f_equal; lia. }
  split.
  { pose proof (discrepancy_labels_bounded (combine sap_four oo_four) 0) as H.
    now rewrite Hlen in H. }
  split. { reflexivity. }
  split. { reflexivity. }
  split.
  { pose proof (discrepancies_count (combine sap_four oo_four) 0). fold n. lia. }
  destruct (List.length sap_four =? List.length oo_four) eqn:E; simpl.
  - apply Nat.eqb_eq in E. split; congruence.
  - apply Nat.eqb_neq in E. split; auto. discriminate.
Qed.

Lemma to_csv_header (linesep : pystr) (df : list DiscrepancyRecord) :
  exists body, to_csv linesep df = csv_header ++ linesep ++ body.
Proof.
  eexists. unfold to_csv, csv_line. rewrite <- !app_assoc. reflexivity.
Qed.

(** C9, as amended. Every record of the discrepancy view carries the label
    index + 2 of a compared row pair with at least one mismatch; the file
    offered for download, which exists only when the view is not empty,
    starts with the line [Excel Row,What’s Different], the apostrophe being
    the typographic one (U+2019) of the column name. *)
Theorem discrepancy_view_labels (linesep : pystr)
  (sap_four oo_four : list CanonicalRow) :
  exists cmp,
    compare_row_by_row sap_four oo_four = Ok cmp /\
    Forall (fun d => exists i s o,
              nth_error sap_four i = Some s /\ nth_error oo_four i = Some o /\
              row_issues s o <> [] /\
              d_excel_row d = i + 2 /\
              d_whats_different d = join (lit " | ") (row_issues s o))
           (discrepancy_df cmp) /\
    csv_header = lit "Excel Row,What’s Different" /\
    ((discrepancy_df cmp = [] /\ download_csv (render linesep cmp) = None) \/
     (discrepancy_df cmp <> [] /\
      exists body,
        download_csv (render linesep cmp) = Some (csv_header ++ linesep ++ body))).
Proof.
  eexists. split; [apply compare_row_by_row_eq|].
  cbn [discrepancy_df render download_csv].
  split.
  { apply Forall_forall. intros d H.
    apply discrepancies_from_In in H as (k & s & o & Hn & Hi & ->).
    apply nth_error_combine_inv in Hn as [Hs Ho].
    exists k, s, o. auto. }
  split. { reflexivity. }
  destruct (discrepancies_from 0 (combine sap_four oo_four)) as [|d rest] eqn:E.
  - left. auto.
  - right. split; [discriminate|]. simpl is_empty. cbv iota.
    destruct (to_csv_header linesep (d :: rest)) as [body Hb].
    exists body. now rewrite Hb.
Qed.

(** C9, the statement as written fails: for the sample tables the file
    starts [Excel Row,What’s Different] and not with the header spelled with
    the ASCII apostrophe. *)
Lemma csv_header_plain_apostrophe_fails :
  exists cmp csv,
    compare_row_by_row sap_table oo_table = Ok cmp /\
    download_csv (render lf cmp) = Some csv /\
    startswith (lit "Excel Row,What’s Different" ++ lf) csv = true /\
    startswith (lit "Excel Row,What's Different") csv = false.
Proof.
  eexists. eexists. split; [apply compare_row_by_row_eq|].
  split; [vm_compute; reflexivity|]. split; vm_compute; reflexivity.
Qed.

(* ------------------------------------------------------------------ *)
(** ** Column extraction and the run *)

Lemma extract_sap_four_narrow (df : RawTable) :
  ncols df <= 7 -> extract_sap_four df = Raise out_of_bounds.
Proof.
  intros H. unfold extract_sap_four, iloc4. cbn [forallb].
  assert (E : (7 <? ncols df) = false) by (apply Nat.ltb_ge; lia).
  now rewrite E, !andb_false_r.
Qed.

Lemma extract_sap_four_wide (df : RawTable) :
  7 < ncols df -> exists t, extract_sap_four df = Ok t /\
                            List.length t = List.length (rows df).
Proof.
  intros H. unfold extract_sap_four, iloc4. cbn [forallb].
  assert (E : forall j, j <= 7 -> (j <? ncols df) = true)
    by (intros; apply Nat.ltb_lt; lia).
  rewrite !E by lia. cbn [andb bind]. eexists. split; [reflexivity|].
  now rewrite !length_map.
Qed.

Lemma extract_oo_four_narrow (df : RawTable) :
  ncols df <= 16 -> extract_oo_four df = Raise out_of_bounds.
Proof.
  intros H. unfold extract_oo_four, iloc4. cbn [forallb].
  assert (E : (16 <? ncols df) = false) by (apply Nat.ltb_ge; lia).
  now rewrite E, !andb_false_r, ?andb_false_l.
Qed.

Lemma extract_oo_four_wide (df : RawTable) :
  16 < ncols df -> exists t, extract_oo_four df = Ok t /\
                             List.length t = List.length (rows df).
Proof.
  intros H. unfold extract_oo_four, iloc4. cbn [forallb].
  assert (E : forall j, j <= 16 -> (j <? ncols df) = true)
    by (intros; apply Nat.ltb_lt; lia).
  rewrite !E by lia. cbn [andb bind]. eexists. split; [reflexivity|].
  now rewrite !length_map.
Qed.

(** With both sheets wide enough the run renders the report of the
    comparison; it never ends on an uncaught exception. *)
Lemma run_rendered (linesep : pystr) (sap_df oo_df : RawTable) :
  7 < ncols sap_df -> 16 < ncols oo_df ->
  exists sap_four oo_four cmp,
    extract_sap_four sap_df = Ok sap_four /\
    extract_oo_four oo_df = Ok oo_four /\
    compare_row_by_row sap_four oo_four = Ok cmp /\
    run linesep sap_df oo_df = Rendered (render linesep cmp).
Proof.
  intros Hs Ho.
  destruct (extract_sap_four_wide sap_df Hs) as (ts & Es & _).
  destruct (extract_oo_four_wide oo_df Ho) as (to & Eo & _).
  exists ts, to. eexists. repeat split; auto.
  - apply compare_row_by_row_eq.
  - unfold run. rewrite Es, Eo. cbn [bind].
    now rewrite compare_row_by_row_eq.
Qed.

(** C7, as amended. When a sheet has no column at the highest position its
    extractor asks for (7 for SAP, 16 for Open Orders), the extractor raises
    the library's index error, whose text names neither the sheet nor the
    position; the run reports it under "Column extraction failed" and stops
    before any comparison, with no report at all. *)
Theorem extraction_failure (linesep : pystr) (sap_df oo_df : RawTable) :
  ncols sap_df <= 7 \/ ncols oo_df <= 16 ->
  (ncols sap_df <= 7 <-> extract_sap_four sap_df = Raise out_of_bounds) /\
  (ncols oo_df <= 16 <-> extract_oo_four oo_df = Raise out_of_bounds) /\
  run linesep sap_df oo_df = Stopped extraction_message /\
  (forall r, run linesep sap_df oo_df <> Rendered r).
Proof.
  intros H.
  assert (Hrun : run linesep sap_df oo_df = Stopped extraction_message).
  { unfold run. destruct (Nat.le_gt_cases (ncols sap_df) 7) as [Hs | Hs].
    - rewrite (extract_sap_four_narrow sap_df Hs). vm_compute. reflexivity.
    - destruct (extract_sap_four_wide sap_df Hs) as (t & -> & _).
      cbn [bind]. rewrite (extract_oo_four_narrow oo_df) by lia.
      vm_compute. reflexivity. }
  split; [|split; [|split]].
  - split; [apply extract_sap_four_narrow|].
    intros E. destruct (Nat.le_gt_cases (ncols sap_df) 7) as [Hs | Hs]; auto.
    destruct (extract_sap_four_wide sap_df Hs) as (t & Et & _). congruence.
  - split; [apply extract_oo_four_narrow|].
    intros E. destruct (Nat.le_gt_cases (ncols oo_df) 16) as [Ho | Ho]; auto.
    destruct (extract_oo_four_wide oo_df Ho) as (t & Et & _). congruence.
  - exact Hrun.
  - intros r. rewrite Hrun. discriminate.
Qed.

Lemma extraction_failure_witness :
  (ncols narrow_sap_sheet <= 7 \/ ncols oo_sheet <= 16) /\
  run lf narrow_sap_sheet oo_sheet = Stopped extraction_message.
Proof.
  assert (H : ncols narrow_sap_sheet <= 7 \/ ncols oo_sheet <= 16)
    by (left; simpl; lia).
  split; [exact H|].
  exact (proj1 (proj2 (proj2 (extraction_failure lf narrow_sap_sheet oo_sheet H)))).
Defined.

(** C7, the statement as written fails: a SAP sheet without column 3 and an
    Open Orders sheet without column 13 stop the run with the same message,
    so the message tells neither which sheet nor which position. *)
Lemma extraction_error_names_no_source :
  failing_extraction narrow_sap_sheet oo_sheet = (SAP, 3) /\
  failing_extraction sap_sheet narrow_oo_sheet = (OpenOrders, 13) /\
  run lf narrow_sap_sheet oo_sheet = run lf sap_sheet narrow_oo_sheet /\
  ~ (exists identify : pystr -> source * nat,
       forall sap_df oo_df msg,
         run lf sap_df oo_df = Stopped msg ->
         identify msg = failing_extraction sap_df oo_df).
Proof.
  split; [reflexivity|]. split; [reflexivity|]. split; [reflexivity|].
  intros [identify H].
  assert (E1 : run lf narrow_sap_sheet oo_sheet = Stopped extraction_message)
    by (vm_compute; reflexivity).
  assert (E2 : run lf sap_sheet narrow_oo_sheet = Stopped extraction_message)
    by (vm_compute; reflexivity).
  pose proof (H _ _ _ E1) as H1. pose proof (H _ _ _ E2) as H2.
  rewrite H1 in H2. vm_compute in H2. discriminate.
Qed.

(** The sample sheets, end to end. *)
Example run_sample :
  exists r, run lf sap_sheet oo_sheet = Rendered r /\
            metric_rows_checked r = 2 /\
            metric_rows_equivalent r = 1 /\
            metric_rows_with_discrepancies r = 1%Z /\
            length_notice r <> None /\
            map d_excel_row (discrepancy_view r) = [3].
Proof.
  eexists. split; [vm_compute; reflexivity|].
  repeat split; try reflexivity. discriminate.
Qed.

(* ------------------------------------------------------------------ *)
(** ** Further properties of the normalizers *)

Lemma strip_zeros_cases (d : pystr) :
  strip_zeros d = [] \/ exists c r, strip_zeros d = c :: r /\ c <> (ch "0").
Proof.
  pose proof (lstrip_head_kept (N.eqb (ch "0")) d) as Hk.
  fold (strip_zeros d) in Hk.
  destruct (strip_zeros d) as [|c r]; [now left|].
  right. exists c, r. split; auto. simpl in Hk. intros ->. discriminate.
Qed.

Lemma norm_line_of_digits (x : cell) :
  norm_line x =
  match strip_zeros (sub_non_digits (py_str x)) with
  | [] => lit "0"
  | r => r
  end.
Proof. reflexivity. Qed.

(** X1. Two cells get the same item number exactly when their digits agree once
    the leading zeros are dropped; so a character that is no digit, wherever
    it stands, and a zero in front never change the item number. *)
Theorem norm_line_same_item :
  (forall x y : cell,
     norm_line x = norm_line y <->
     strip_zeros (sub_non_digits (py_str x)) =
     strip_zeros (sub_non_digits (py_str y))) /\
  (forall (a b : pystr) (c : char),
     is_digit c = false ->
     norm_line (CStr (a ++ c :: b)) = norm_line (CStr (a ++ b))) /\
  (forall s : pystr, norm_line (CStr ((ch "0") :: s)) = norm_line (CStr s)).
Proof.
  split; [|split].
  - intros x y. rewrite !norm_line_of_digits.
    destruct (strip_zeros_cases (sub_non_digits (py_str x)))
      as [Hx | (cx & rx & Hx & Hcx)];
    destruct (strip_zeros_cases (sub_non_digits (py_str y)))
      as [Hy | (cy & ry & Hy & Hcy)]; rewrite Hx, Hy; split; auto;
      try discriminate.
    + intros H. exfalso. apply Hcy. inversion H. reflexivity.
    + intros H. exfalso. apply Hcx. inversion H. reflexivity.
  - intros a b c Hc. rewrite !norm_line_of_digits. simpl py_str.
    unfold sub_non_digits. rewrite !filter_app. simpl. now rewrite Hc.
  - intros s. reflexivity.
Qed.

Lemma number_of_snoc (s : pystr) (c : char) :
  number_of (s ++ [c]) = (number_of s * 10 + digit_value c)%N.
Proof. unfold number_of. now rewrite fold_left_app. Qed.

Lemma digit_value_digit_char (d : N) : (d < 10)%N -> digit_value (digit_char d) = d.
Proof.
  intros H. unfold digit_value, digit_char. lia.
Qed.

(** Reading back the decimal form gives the number. *)
Lemma number_of_digits_of (fuel : nat) (n : N) :
  (N.to_nat (N.log2 n) < fuel)%nat -> number_of (digits_of fuel n) = n.
Proof.
  revert n. induction fuel as [|f IH]; intros n Hf; [lia|].
  simpl. destruct (n <? 10)%N eqn:E.
  - apply N.ltb_lt in E. unfold number_of. simpl.
    now rewrite digit_value_digit_char.
  - apply N.ltb_ge in E. rewrite number_of_snoc, IH.
    + rewrite digit_value_digit_char by (apply N.mod_lt; lia).
      pose proof (N.div_mod n 10). lia.
    + pose proof (log2_div10 n E). lia.
Qed.

Lemma number_of_str_N (n : N) : number_of (str_N n) = n.
Proof. apply number_of_digits_of. lia. Qed.

Lemma norm_line_int (z : Z) : norm_line (CInt z) = str_N (Z.abs_N z).
Proof.
  rewrite norm_line_of_digits. simpl py_str. rewrite sub_non_digits_str_Z.
  destruct (N.eq_dec (Z.abs_N z) 0) as [E | E].
  - rewrite E. reflexivity.
  - destruct (str_N_head (Z.abs_N z)) as (c & r & Hs & Hc); [lia|].
    rewrite Hs. unfold strip_zeros. cbn [lstrip_by].
    destruct (N.eqb (ch "0") c) eqn:E0; auto.
    apply N.eqb_eq in E0. congruence.
Qed.

(** X2. On integer cells the item number is the decimal form of the absolute
    value: the sign is lost, and two integers get the same item number
    exactly when they have the same absolute value. *)
Theorem norm_line_int_cells (a b : Z) :
  number_of (norm_line (CInt a)) = Z.abs_N a /\
  (norm_line (CInt a) = norm_line (CInt b) <-> Z.abs a = Z.abs b).
Proof.
  rewrite !norm_line_int. split; [apply number_of_str_N|]. split.
  - intros H. apply (f_equal number_of) in H. rewrite !number_of_str_N in H. lia.
  - intros H. f_equal. lia.
Qed.

Lemma startswith_self_app (m t : pystr) : startswith m (m ++ t) = true.
Proof.
  induction m as [|c m IH]; simpl; auto. now rewrite N.eqb_refl.
Qed.

Lemma startswith_long (m u t : pystr) :
  List.length m <= List.length u -> startswith m (u ++ t) = startswith m u.
Proof.
  revert u. induction m as [|c m IH]; intros u H; auto.
  destruct u as [|x u]; simpl in H; [lia|].
  simpl. rewrite IH by lia. reflexivity.
Qed.

Lemma split_head_tail (m s t : pystr) :
  split_head m (s ++ m ++ t) = split_head m (s ++ m).
Proof.
  induction s as [|c s IH].
  - simpl app. destruct m as [|x m]; [now destruct t|].
    rewrite <- (app_nil_r (x :: m)) at 4.
    destruct t; simpl; now rewrite ?N.eqb_refl, !startswith_self_app.
  - assert (E : startswith m ((c :: s) ++ m ++ t) = startswith m ((c :: s) ++ m)).
    { rewrite app_assoc. apply startswith_long.
      rewrite length_app. simpl. lia. }
    simpl app in *. simpl split_head. rewrite E, IH. reflexivity.
Qed.

Lemma contains_app_marker (m s t : pystr) : contains m (s ++ m ++ t) = true.
Proof.
  induction s as [|c s IH].
  - simpl app. destruct (m ++ t) eqn:E; simpl;
      rewrite <- E, startswith_self_app; reflexivity.
  - simpl. rewrite IH. apply orb_true_r.
Qed.

(** X3. What follows the first ">>" never shows in the model: two texts that
    agree up to and including a ">>" get the same model. *)
Theorem clean_model_ignores_tail (s t t' : pystr) :
  clean_model (CStr (s ++ marker ++ t)) = clean_model (CStr (s ++ marker ++ t')).
Proof.
  unfold clean_model. cbn [isna py_str].
  rewrite !contains_app_marker.
  now rewrite (split_head_tail marker s t), (split_head_tail marker s t').
Qed.

(** X4. The two location normalizers agree on every cell except those whose
    trimmed string form is the code 2913, which only the SAP side turns into
    EDMONTON; the trimming is that of [str.strip], so a no-break space after
    the code does not hide it. *)
Theorem norm_loc_sap_vs_oo (x : cell) :
  (norm_loc_sap x = norm_loc_oo x <-> strip (py_str x) <> lit "2913") /\
  (forall code, trim_of (py_str x) code ->
                (norm_loc_sap x = norm_loc_oo x <-> code <> lit "2913")) /\
  (strip (py_str x) = lit "2913" ->
   norm_loc_sap x = lit "EDMONTON" /\ norm_loc_oo x = lit "2913") /\
  norm_loc_sap (CStr (lit "2913" ++ [160]%N)) = lit "EDMONTON" /\
  norm_loc_oo (CStr (lit "2913" ++ [160]%N)) = lit "2913" /\
  norm_loc_sap (CStr (lit "montréal")) = norm_loc_oo (CStr (lit " MONTRÉAL")).
Proof.
  assert (H : norm_loc_sap x = norm_loc_oo x <-> strip (py_str x) <> lit "2913").
  { unfold norm_loc_sap, norm_loc_oo.
    destruct (pystr_eqb (strip (py_str x)) (lit "2913")) eqn:E.
    - apply pystr_eqb_eq in E. rewrite E. split; [discriminate | congruence].
    - apply pystr_eqb_neq in E. tauto. }
  split; [exact H|]. split.
  { intros code Hc. now rewrite <- (trim_of_strip _ _ Hc). }
  split; [|repeat split; vm_compute; reflexivity].
  intros E. unfold norm_loc_sap, norm_loc_oo. rewrite E. split; reflexivity.
Qed.

Lemma norm_loc_sap_vs_oo_witness :
  norm_loc_sap (CInt 2913) = lit "EDMONTON" /\ norm_loc_oo (CInt 2913) = lit "2913".
Proof.
  apply (proj1 (proj2 (proj2 (norm_loc_sap_vs_oo (CInt 2913))))). reflexivity.
Defined.

(** *** The canonical form of the fields *)

Lemma norm_po_canonical (x : cell) :
  ~ In (ch " ") (norm_po x) /\ upper (norm_po x) = norm_po x /\
  strip (norm_po x) = norm_po x.
Proof.
  split; [|split].
  - unfold norm_po, remove_spaces. intros H. apply filter_In in H as [_ H].
    discriminate.
  - unfold norm_po. now rewrite remove_spaces_upper, upper_idem.
  - rewrite norm_po_key. apply strip_idem.
Qed.

Lemma norm_line_canonical (x : cell) :
  forallb is_digit (norm_line x) = true /\ no_leading_zero (norm_line x).
Proof.
  split; [apply norm_line_digits|].
  destruct (norm_line_cases x) as [[_ H] | (c & r & _ & Hc & H)]; rewrite H.
  - now left.
  - right. exists c, r. auto.
Qed.

Lemma clean_model_canonical (x : cell) :
  contains marker (clean_model x) = false /\ strip (clean_model x) = clean_model x.
Proof.
  unfold clean_model. destruct (isna x); [split; reflexivity|].
  destruct (contains marker (py_str x)) eqn:E;
    rewrite (contains_strip marker marker_solid marker_nonempty), strip_idem;
    split; auto.
  apply (contains_split_head marker marker_solid marker_nonempty).
Qed.

Lemma norm_loc_oo_canonical (x : cell) :
  upper (norm_loc_oo x) = norm_loc_oo x /\ strip (norm_loc_oo x) = norm_loc_oo x.
Proof.
  unfold norm_loc_oo. split; [apply upper_idem|].
  now rewrite strip_upper, strip_idem.
Qed.

Lemma norm_loc_sap_canonical (x : cell) :
  upper (norm_loc_sap x) = norm_loc_sap x /\ strip (norm_loc_sap x) = norm_loc_sap x.
Proof.
  unfold norm_loc_sap.
  destruct (pystr_eqb (strip (py_str x)) (lit "2913")); [split; reflexivity|].
  split; [apply upper_idem|]. now rewrite strip_upper, strip_idem.
Qed.

Lemma sap_row_of_canonical (r : list cell) : canonical_row (sap_row_of r).
Proof.
  unfold canonical_row, sap_row_of. cbn [po po_item model location].
  split; [apply norm_po_canonical|]. split; [apply norm_line_canonical|].
  split; [apply clean_model_canonical | apply norm_loc_sap_canonical].
Qed.

Lemma oo_row_of_canonical (r : list cell) : canonical_row (oo_row_of r).
Proof.
  unfold canonical_row, oo_row_of. cbn [po po_item model location].
  split; [apply norm_po_canonical|]. split; [apply norm_line_canonical|].
  split; [apply clean_model_canonical | apply norm_loc_oo_canonical].
Qed.

(** *** The extractors on a sheet that is wide enough *)

Lemma extract_sap_four_rows (df : RawTable) :
  7 < ncols df -> extract_sap_four df = Ok (map sap_row_of (rows df)).
Proof.
  intros H. unfold extract_sap_four, iloc4. cbn [forallb].
  assert (E : forall j, j <= 7 -> (j <? ncols df) = true)
    by (intros; apply Nat.ltb_lt; lia).
  rewrite !E by lia. cbn [andb bind]. now rewrite map_map.
Qed.

Lemma extract_oo_four_rows (df : RawTable) :
  16 < ncols df -> extract_oo_four df = Ok (map oo_row_of (rows df)).
Proof.
  intros H. unfold extract_oo_four, iloc4. cbn [forallb].
  assert (E : forall j, j <= 16 -> (j <? ncols df) = true)
    by (intros; apply Nat.ltb_lt; lia).
  rewrite !E by lia. cbn [andb bind]. now rewrite map_map.
Qed.

Lemma extract_sap_four_ok_wide (df : RawTable) (t : list CanonicalRow) :
  extract_sap_four df = Ok t -> 7 < ncols df.
Proof.
  intros H. destruct (Nat.le_gt_cases (ncols df) 7) as [Hn | Hn]; auto.
  rewrite (extract_sap_four_narrow df Hn) in H. discriminate.
Qed.

Lemma extract_oo_four_ok_wide (df : RawTable) (t : list CanonicalRow) :
  extract_oo_four df = Ok t -> 16 < ncols df.
Proof.
  intros H. destruct (Nat.le_gt_cases (ncols df) 16) as [Hn | Hn]; auto.
  rewrite (extract_oo_four_narrow df Hn) in H. discriminate.
Qed.

(** X5. Whatever the cells hold (text, numbers, missing values, rows shorter
    than the sheet), a table the SAP extractor returns has one row per sheet
    row, in order, and every row is canonical: the PO has no space and is
    left as it is by [str.upper] and [str.strip], the item is a digit string
    without leading zero, the model is trimmed and holds no ">>", the
    location is trimmed and in upper case. *)
Theorem extract_sap_four_canonical (df : RawTable) (t : list CanonicalRow) :
  extract_sap_four df = Ok t ->
  List.length t = List.length (rows df) /\
  t = map sap_row_of (rows df) /\
  Forall canonical_row t.
Proof.
  intros H. pose proof (extract_sap_four_ok_wide df t H) as Hw.
  rewrite (extract_sap_four_rows df Hw) in H. inversion H; subst.
  split; [apply length_map|]. split; auto.
  apply Forall_forall. intros r Hr. apply in_map_iff in Hr as (c & <- & _).
  apply sap_row_of_canonical.
Qed.

Lemma extract_sap_four_canonical_witness :
  Forall canonical_row (map sap_row_of (rows sap_sheet)).
Proof.
  apply (extract_sap_four_canonical sap_sheet (map sap_row_of (rows sap_sheet))).
  reflexivity.
Defined.

(** X6. A table the Open Orders extractor returns has one row per sheet row,
    in order, built from columns 13, 14, 16 and 9, and every row is canonical
    in the same sense, whatever the cells hold. *)
Theorem extract_oo_four_canonical (df : RawTable) (t : list CanonicalRow) :
  extract_oo_four df = Ok t ->
  List.length t = List.length (rows df) /\
  t = map oo_row_of (rows df) /\
  Forall canonical_row t.
Proof.
  intros H. pose proof (extract_oo_four_ok_wide df t H) as Hw.
  rewrite (extract_oo_four_rows df Hw) in H. inversion H; subst.
  split; [apply length_map|]. split; auto.
  apply Forall_forall. intros r Hr. apply in_map_iff in Hr as (c & <- & _).
  apply oo_row_of_canonical.
Qed.

Lemma extract_oo_four_canonical_witness :
  Forall canonical_row (map oo_row_of (rows oo_sheet)).
Proof.
  apply (extract_oo_four_canonical oo_sheet (map oo_row_of (rows oo_sheet))).
  reflexivity.
Defined.

(* ------------------------------------------------------------------ *)
(** ** Further properties of the comparator *)

Lemma row_issues_nil_eq (s o : CanonicalRow) : row_issues s o = [] <-> s = o.
Proof.
  rewrite row_issues_empty. split.
  - intros H. destruct s, o.
    pose proof (H FPo). pose proof (H FPoItem).
    pose proof (H FModel). pose proof (H FLocation). simpl in *. congruence.
  - intros ->. reflexivity.
Qed.

Lemma equivalent_pair_eq (s o : CanonicalRow) :
  equivalent_pair (s, o) = true <-> s = o.
Proof.
  unfold equivalent_pair. cbn [fst snd]. rewrite is_empty_nil.
  apply row_issues_nil_eq.
Qed.

Lemma equivalent_pair_sym (s o : CanonicalRow) :
  equivalent_pair (s, o) = equivalent_pair (o, s).
Proof.
  destruct (equivalent_pair (s, o)) eqn:E1, (equivalent_pair (o, s)) eqn:E2; auto.
  - apply equivalent_pair_eq in E1. subst.
    rewrite (proj2 (equivalent_pair_eq o o) eq_refl) in E2. discriminate.
  - apply equivalent_pair_eq in E2. subst.
    rewrite (proj2 (equivalent_pair_eq s s) eq_refl) in E1. discriminate.
Qed.

Lemma discrepancies_from_nil pairs start :
  discrepancies_from start pairs = [] <-> Forall (fun p => fst p = snd p) pairs.
Proof.
  revert start. induction pairs as [|[s o] rest IH]; intros start.
  - simpl. split; auto.
  - cbn [discrepancies_from]. destruct (equivalent_pair (s, o)) eqn:E.
    + rewrite IH. apply equivalent_pair_eq in E. split.
      * intros H. constructor; auto.
      * intros H. now inversion H.
    + split; [discriminate|]. intros H. inversion H; subst. simpl in *.
      apply equivalent_pair_eq in H2. congruence.
Qed.

Lemma combine_all_equal {A : Type} (l l' : list A) :
  Forall (fun p => fst p = snd p) (combine l l') <->
  firstn (Nat.min (List.length l) (List.length l')) l =
  firstn (Nat.min (List.length l) (List.length l')) l'.
Proof.
  revert l'. induction l as [|a l IH]; intros [|b l']; simpl;
    try (split; auto; fail).
  split.
  - intros H. inversion H; subst. simpl in *. f_equal; auto. now apply IH.
  - intros H. inversion H; subst. constructor; auto. now apply IH.
Qed.

(** X7. The discrepancy view is empty, and every checked row counts as
    equivalent, exactly when the two tables hold the same rows up to the
    length of the shorter one. *)
Theorem no_discrepancy_iff_same_rows (sap_four oo_four : list CanonicalRow) :
  let n := Nat.min (List.length sap_four) (List.length oo_four) in
  exists cmp,
    compare_row_by_row sap_four oo_four = Ok cmp /\
    (discrepancy_df cmp = [] <-> firstn n sap_four = firstn n oo_four) /\
    (rows_equivalent cmp = rows_checked cmp <->
     firstn n sap_four = firstn n oo_four).
Proof.
  intros n. eexists. split; [apply compare_row_by_row_eq|].
  cbn [discrepancy_df rows_equivalent rows_checked]. fold n.
  assert (H1 : discrepancies_from 0 (combine sap_four oo_four) = [] <->
               firstn n sap_four = firstn n oo_four).
  { rewrite discrepancies_from_nil. apply combine_all_equal. }
  split; auto. rewrite <- H1.
  pose proof (discrepancies_count (combine sap_four oo_four) 0) as Hc.
  rewrite length_combine in Hc. fold n in Hc.
  destruct (discrepancies_from 0 (combine sap_four oo_four)); simpl in *.
  - split; auto; lia.
  - split; [lia | discriminate].
Qed.

Lemma discrepancy_labels_sym (l l' : list CanonicalRow) (start : nat) :
  map d_excel_row (discrepancies_from start (combine l l')) =
  map d_excel_row (discrepancies_from start (combine l' l)).
Proof.
  revert l' start. induction l as [|s l IH]; intros [|o l'] start; auto.
  cbn [combine discrepancies_from]. rewrite (equivalent_pair_sym o s).
  destruct (equivalent_pair (s, o)); simpl; now rewrite IH.
Qed.

Lemma count_equivalent_sym (l l' : list CanonicalRow) :
  count_equivalent (combine l l') = count_equivalent (combine l' l).
Proof.
  unfold count_equivalent. revert l'.
  induction l as [|s l IH]; intros [|o l']; auto.
  cbn [combine filter]. rewrite (equivalent_pair_sym o s).
  destruct (equivalent_pair (s, o)); simpl; now rewrite IH.
Qed.

(** X8. Passing the two canonical tables the other way round does not change
    the verdicts: the counts are the same, the same rows are listed, and the
    two reported lengths are exchanged. *)
Theorem compare_row_by_row_sym (sap_four oo_four : list CanonicalRow) :
  exists cmp cmp',
    compare_row_by_row sap_four oo_four = Ok cmp /\
    compare_row_by_row oo_four sap_four = Ok cmp' /\
    rows_checked cmp' = rows_checked cmp /\
    rows_equivalent cmp' = rows_equivalent cmp /\
    map d_excel_row (discrepancy_df cmp') = map d_excel_row (discrepancy_df cmp) /\
    sap_len cmp' = oo_len cmp /\ oo_len cmp' = sap_len cmp.
Proof.
  eexists. eexists. split; [apply compare_row_by_row_eq|].
  split; [apply compare_row_by_row_eq|].
  cbn [rows_checked rows_equivalent discrepancy_df sap_len oo_len].
  split; [apply Nat.min_comm|]. split; [apply count_equivalent_sym|].
  split; [apply discrepancy_labels_sym|]. auto.
Qed.

Lemma combined_labels pairs start :
  map c_excel_row (combined_from start pairs) = seq (start + 2) (List.length pairs).
Proof.
  revert start. induction pairs as [|[s o] rest IH]; intros start; simpl; auto.
  f_equal. apply (IH (S start)).
Qed.

Lemma discrepancy_labels_sorted pairs start :
  StronglySorted lt (map d_excel_row (discrepancies_from start pairs)).
Proof.
  revert start. induction pairs as [|[s o] rest IH]; intros start.
  - constructor.
  - cbn [discrepancies_from]. destruct (equivalent_pair (s, o)); auto.
    simpl. constructor; auto.
    apply Forall_forall. intros l Hl. apply in_map_iff in Hl as (d & <- & Hd).
    pose proof (discrepancy_labels_bounded rest (S start)) as Hb.
    rewrite Forall_forall in Hb. specialize (Hb d Hd). lia.
Qed.

(** X9. The full view has one record per checked row with the labels 2, 3, ...
    in order; the discrepancy view lists its rows by strictly increasing
    label, so no row twice, each record being that of a compared pair of
    rows with between one and four mismatch descriptions. *)
Theorem views_in_row_order (sap_four oo_four : list CanonicalRow) :
  exists cmp,
    compare_row_by_row sap_four oo_four = Ok cmp /\
    map c_excel_row (combined_df cmp) = seq 2 (rows_checked cmp) /\
    StronglySorted lt (map d_excel_row (discrepancy_df cmp)) /\
    Forall (fun d => exists i s o,
              nth_error sap_four i = Some s /\ nth_error oo_four i = Some o /\
              d = discrepancy_of i s o /\
              1 <= List.length (row_issues s o) <= 4)
           (discrepancy_df cmp).
Proof.
  eexists. split; [apply compare_row_by_row_eq|].
  cbn [combined_df discrepancy_df rows_checked].
  split. { rewrite combined_labels, length_combine. reflexivity. }
  split. { apply discrepancy_labels_sorted. }
  apply Forall_forall. intros d H.
  apply discrepancies_from_In in H as (k & s & o & Hn & Hi & ->).
  apply nth_error_combine_inv in Hn as [Hs Ho].
  exists k, s, o. split; auto. split; auto. split; [reflexivity|]. split.
  - destruct (row_issues s o); [congruence | simpl; lia].
  - rewrite row_issues_fields, length_map. unfold differing_fields.
    apply (filter_length_le _ field_order).
Qed.

Lemma combine_app_same {A B : Type} (l1 l2 : list A) (l1' l2' : list B) :
  List.length l1 = List.length l1' ->
  combine (l1 ++ l2) (l1' ++ l2') = combine l1 l1' ++ combine l2 l2'.
Proof.
  revert l1'. induction l1 as [|a l1 IH]; intros [|b l1'] H; simpl in *;
    try discriminate; auto.
  f_equal. apply IH. lia.
Qed.

Lemma discrepancies_from_app p q start :
  discrepancies_from start (p ++ q) =
  discrepancies_from start p ++ discrepancies_from (start + List.length p) q.
Proof.
  revert start. induction p as [|[s o] p IH]; intros start.
  - simpl. now rewrite Nat.add_0_r.
  - cbn [app discrepancies_from List.length]. rewrite IH.
    replace (S start + List.length p) with (start + S (List.length p)) by lia.
    now destruct (equivalent_pair (s, o)).
Qed.

Lemma combined_from_app p q start :
  combined_from start (p ++ q) =
  combined_from start p ++ combined_from (start + List.length p) q.
Proof.
  revert start. induction p as [|[s o] p IH]; intros start.
  - simpl. now rewrite Nat.add_0_r.
  - cbn [app combined_from List.length]. rewrite IH.
    now replace (S start + List.length p) with (start + S (List.length p)) by lia.
Qed.

Lemma discrepancies_from_shift q start k :
  discrepancies_from (start + k) q =
  map (shift_discrepancy k) (discrepancies_from start q).
Proof.
  revert start. induction q as [|[s o] q IH]; intros start; auto.
  cbn [discrepancies_from]. change (S (start + k)) with (S start + k).
  rewrite (IH (S start)).
  destruct (equivalent_pair (s, o)); auto.
  simpl. f_equal. unfold discrepancy_of, shift_discrepancy. simpl. f_equal. lia.
Qed.

Lemma combined_from_shift q start k :
  combined_from (start + k) q = map (shift_combined k) (combined_from start q).
Proof.
  revert start. induction q as [|[s o] q IH]; intros start; auto.
  cbn [combined_from map]. change (S (start + k)) with (S start + k).
  rewrite (IH (S start)). f_equal.
  unfold combined_of, shift_combined. simpl. f_equal. lia.
Qed.

(** X10. Comparing two tables made of a first part of equal length on both sides
    and a second part gives the result of the first parts followed by the
    result of the second parts, the labels of the latter moved down by the
    length of the first part; no row's verdict depends on another row. *)
Theorem compare_row_by_row_app (s1 o1 s2 o2 : list CanonicalRow) :
  List.length s1 = List.length o1 ->
  exists c1 c2 c,
    compare_row_by_row s1 o1 = Ok c1 /\
    compare_row_by_row s2 o2 = Ok c2 /\
    compare_row_by_row (s1 ++ s2) (o1 ++ o2) = Ok c /\
    rows_checked c = rows_checked c1 + rows_checked c2 /\
    rows_equivalent c = rows_equivalent c1 + rows_equivalent c2 /\
    discrepancy_df c =
      discrepancy_df c1 ++ map (shift_discrepancy (List.length s1)) (discrepancy_df c2) /\
    combined_df c =
      combined_df c1 ++ map (shift_combined (List.length s1)) (combined_df c2).
Proof.
  intros H. do 3 eexists.
  split; [apply compare_row_by_row_eq|]. split; [apply compare_row_by_row_eq|].
  split; [apply compare_row_by_row_eq|].
  cbn [rows_checked rows_equivalent discrepancy_df combined_df].
  rewrite (combine_app_same s1 s2 o1 o2 H).
  assert (Hl : List.length (combine s1 o1) = List.length s1)
    by (rewrite length_combine; lia).
  split. { rewrite !length_app. lia. }
  split. { unfold count_equivalent. now rewrite filter_app, length_app. }
  split.
  - rewrite discrepancies_from_app, Hl. f_equal.
    apply (discrepancies_from_shift (combine s2 o2) 0).
  - rewrite combined_from_app, Hl. f_equal.
    apply (combined_from_shift (combine s2 o2) 0).
Qed.

Lemma compare_row_by_row_app_witness :
  exists c,
    compare_row_by_row (oo_table ++ sap_table) (oo_table ++ oo_table) = Ok c /\
    map d_excel_row (discrepancy_df c) = [5].
Proof.
  destruct (compare_row_by_row_app oo_table oo_table sap_table oo_table eq_refl)
    as (c1 & c2 & c & H1 & H2 & Hc & _ & _ & Hd & _).
  exists c. split; [exact Hc|]. rewrite Hd.
  rewrite compare_row_by_row_eq in H1, H2.
  inversion H1; subst c1. inversion H2; subst c2. reflexivity.
Defined.

(* ------------------------------------------------------------------ *)
(** ** Further properties of the run *)

(** X11. Whatever the two sheets hold, the run ends in one of two ways, told by
    the widths alone: with the extraction error when the SAP sheet has at
    most 7 columns or the Open Orders sheet at most 16, with the report
    otherwise. No exception escapes: the comparison itself cannot fail. *)
Theorem run_outcome (linesep : pystr) (sap_df oo_df : RawTable) :
  ((ncols sap_df <= 7 \/ ncols oo_df <= 16) /\
   run linesep sap_df oo_df = Stopped extraction_message) \/
  ((7 < ncols sap_df /\ 16 < ncols oo_df) /\
   exists cmp,
     compare_row_by_row (map sap_row_of (rows sap_df)) (map oo_row_of (rows oo_df))
       = Ok cmp /\
     run linesep sap_df oo_df = Rendered (render linesep cmp)).
Proof.
  unfold run.
  destruct (Nat.le_gt_cases (ncols sap_df) 7) as [Hs | Hs].
  - left. split; auto. rewrite (extract_sap_four_narrow sap_df Hs).
    vm_compute. reflexivity.
  - rewrite (extract_sap_four_rows sap_df Hs). cbn [bind].
    destruct (Nat.le_gt_cases (ncols oo_df) 16) as [Ho | Ho].
    + left. split; auto. rewrite (extract_oo_four_narrow oo_df Ho).
      vm_compute. reflexivity.
    + right. split; auto. rewrite (extract_oo_four_rows oo_df Ho). cbn [bind].
      eexists. split; [apply compare_row_by_row_eq|].
      now rewrite compare_row_by_row_eq.
Qed.

(** X12. For two sheets that are wide enough the report counts as checked the
    rows of the shorter sheet, shows the length notice exactly when the
    sheets differ in their number of rows, and shows at position [i] of the
    full view the row label [i + 2] with the normalized cells of row [i] of
    both sheets: columns 2, 6, 7, 3 of the SAP sheet and 13, 14, 16, 9 of the
    Open Orders sheet as PO, item, model and location. The file is offered
    exactly when the discrepancy view is not empty. *)
Theorem run_report (linesep : pystr) (sap_df oo_df : RawTable) :
  7 < ncols sap_df -> 16 < ncols oo_df ->
  exists r,
    run linesep sap_df oo_df = Rendered r /\
    metric_rows_checked r =
      Nat.min (List.length (rows sap_df)) (List.length (rows oo_df)) /\
    List.length (row_view r) = metric_rows_checked r /\
    (length_notice r = None <->
     List.length (rows sap_df) = List.length (rows oo_df)) /\
    (forall i rs ro,
       nth_error (rows sap_df) i = Some rs ->
       nth_error (rows oo_df) i = Some ro ->
       nth_error (row_view r) i =
         Some (combined_of i (sap_row_of rs) (oo_row_of ro))) /\
    (download_csv r = None <-> discrepancy_view r = []).
Proof.
  intros Hs Ho. unfold run.
  rewrite (extract_sap_four_rows sap_df Hs), (extract_oo_four_rows oo_df Ho).
  cbn [bind]. rewrite compare_row_by_row_eq. eexists. split; [reflexivity|].
  cbn [render metric_rows_checked row_view length_notice download_csv
       discrepancy_view rows_checked combined_df discrepancy_df sap_len oo_len].
  rewrite !length_map.
  split. { reflexivity. }
  split. { now rewrite combined_from_length, length_combine, !length_map. }
  split.
  { destruct (List.length (rows sap_df) =? List.length (rows oo_df)) eqn:E; simpl.
    - apply Nat.eqb_eq in E. tauto.
    - apply Nat.eqb_neq in E. split; [discriminate | tauto]. }
  split.
  { intros i rs ro Hrs Hro.
    apply (combined_from_nth _ 0 i). apply nth_error_combine.
    - now rewrite nth_error_map, Hrs.
    - now rewrite nth_error_map, Hro. }
  destruct (discrepancies_from 0 _); simpl; split; auto; discriminate.
Qed.

Lemma run_report_witness :
  exists r, run lf sap_sheet oo_sheet = Rendered r /\ metric_rows_checked r = 2.
Proof.
  destruct (run_report lf sap_sheet oo_sheet) as (r & Hr & Hn & _);
    [simpl; lia | simpl; lia |].
  exists r. split; [exact Hr | exact Hn].
Defined.

(* ------------------------------------------------------------------ *)
(** ** Numbers read as floats *)

Lemma is_plain_values (c : char) :
  is_plain c = true ->
  In c [45; 46; 48; 49; 50; 51; 52; 53; 54; 55; 56; 57]%N.
Proof.
  unfold is_plain, is_digit. intros H.
  assert (Hc : (c = 45 \/ c = 46 \/ (48 <= c <= 57))%N).
  { apply orb_true_iff in H as [H | H]; [apply orb_true_iff in H as [H | H]|].
    - apply andb_true_iff in H as [H1 H2]. apply N.leb_le in H1, H2. lia.
    - apply N.eqb_eq in H. now left.
    - apply N.eqb_eq in H. right. now left. }
  simpl. lia.
Qed.

Lemma is_plain_not_space (c : char) : is_plain c = true -> is_space c = false.
Proof.
  intros H. apply is_plain_values in H. simpl in H.
  repeat (destruct H as [<- | H]; [reflexivity|]). contradiction.
Qed.

Lemma is_plain_upper (c : char) : is_plain c = true -> upper_char c = [c].
Proof.
  intros H. apply is_plain_values in H. simpl in H.
  repeat (destruct H as [<- | H]; [vm_compute; reflexivity|]). contradiction.
Qed.

Lemma is_plain_not_blank (c : char) :
  is_plain c = true -> negb (N.eqb c (ch " ")) = true.
Proof.
  intros H. apply is_plain_values in H. simpl in H.
  repeat (destruct H as [<- | H]; [reflexivity|]). contradiction.
Qed.

Lemma is_digit_plain (c : char) : is_digit c = true -> is_plain c = true.
Proof. unfold is_plain. now intros ->. Qed.

Lemma forallb_impl {A : Type} (p q : A -> bool) (l : list A) :
  (forall a, p a = true -> q a = true) ->
  forallb p l = true -> forallb q l = true.
Proof.
  intros Hpq. rewrite !forallb_forall. auto.
Qed.

Lemma head_kept_plain (s : pystr) :
  forallb is_plain s = true -> head_kept is_space s = true.
Proof.
  destruct s as [|c t]; simpl; auto. intros H.
  apply andb_true_iff in H as [Hc _]. now rewrite (is_plain_not_space c Hc).
Qed.

Lemma plain_text_fixed (s : pystr) :
  forallb is_plain s = true ->
  strip s = s /\ upper s = s /\ remove_spaces s = s.
Proof.
  intros H. split; [|split].
  - unfold strip, rstrip_by.
    rewrite (lstrip_fixed is_space s (head_kept_plain s H)).
    rewrite lstrip_fixed; [apply rev_involutive|].
    apply head_kept_plain. now rewrite forallb_rev.
  - apply flat_map_fixed. intros c Hc. apply is_plain_upper.
    rewrite forallb_forall in H. auto.
  - apply filter_all. revert H. apply forallb_impl, is_plain_not_blank.
Qed.

Lemma str_Z_plain (z : Z) : forallb is_plain (str_Z z) = true.
Proof.
  unfold str_Z. destruct (z <? 0)%Z; simpl;
    apply (forallb_impl is_digit is_plain _ is_digit_plain), str_N_all_digits.
Qed.

Lemma float_form_plain (z : Z) : forallb is_plain (py_str (CFloatInt z)) = true.
Proof.
  simpl. rewrite forallb_app, str_Z_plain. reflexivity.
Qed.

(** X13. A whole number that the sheet holds as a float keeps its ".0" in the PO
    number and in both locations, so it never matches the same number held
    as an integer or as text, and the SAP location 2913 held as a float is
    not turned into EDMONTON. *)
Theorem float_cells_keep_point (z : Z) :
  (Z.abs z < 10 ^ 16)%Z ->
  norm_po (CInt z) = str_Z z /\
  norm_po (CFloatInt z) = str_Z z ++ lit ".0" /\
  norm_loc_oo (CFloatInt z) = str_Z z ++ lit ".0" /\
  norm_loc_sap (CFloatInt z) = str_Z z ++ lit ".0" /\
  norm_po (CFloatInt z) <> norm_po (CInt z) /\
  norm_loc_sap (CFloatInt z) <> lit "EDMONTON".
Proof.
  intros _.
  destruct (plain_text_fixed (str_Z z) (str_Z_plain z)) as (S1 & U1 & R1).
  destruct (plain_text_fixed _ (float_form_plain z)) as (S2 & U2 & R2).
  assert (Hp : norm_po (CFloatInt z) = str_Z z ++ lit ".0").
  { unfold norm_po. now rewrite S2, U2, R2. }
  assert (Hi : norm_po (CInt z) = str_Z z).
  { unfold norm_po. simpl py_str. now rewrite S1, U1, R1. }
  assert (Ho : norm_loc_oo (CFloatInt z) = str_Z z ++ lit ".0").
  { unfold norm_loc_oo. now rewrite S2, U2. }
  assert (Hs : norm_loc_sap (CFloatInt z) = str_Z z ++ lit ".0").
  { unfold norm_loc_sap. rewrite S2, U2.
    destruct (pystr_eqb (py_str (CFloatInt z)) (lit "2913")) eqn:E; auto.
    apply pystr_eqb_eq in E. exfalso.
    assert (Hin : In (ch ".") (py_str (CFloatInt z)))
      by (simpl; apply in_or_app; right; simpl; auto).
    rewrite E in Hin. simpl in Hin.
    repeat (destruct Hin as [Hin | Hin]; [discriminate|]). exact Hin. }
  repeat split; auto.
  - rewrite Hp, Hi. intros H. apply (f_equal (@List.length char)) in H.
    rewrite length_app in H. simpl in H. lia.
  - rewrite Hs. intros H.
    assert (Hin : In (ch ".") (str_Z z ++ lit ".0"))
      by (apply in_or_app; right; simpl; auto).
    rewrite H in Hin. simpl in Hin.
    repeat (destruct Hin as [Hin | Hin]; [discriminate|]). exact Hin.
Qed.

Lemma float_cells_keep_point_witness :
  norm_loc_sap (CFloatInt 2913) = lit "2913.0".
Proof.
  exact (proj1 (proj2 (proj2 (proj2 (float_cells_keep_point 2913 eq_refl))))).
Defined.
